(** * A shallow embedding of the ipcz Router (router.cc) and the parts of its
    collaborators it relies on.

    Sequence numbers and sizes are unsigned 64-bit counters in the source;
    they are modelled as [N].  Sequence numbers only grow by one per parcel,
    so their wrap-around is never reached and is not modelled; the saturating
    additions of [Router::Trap] are written out at 64 bits. *)

From Stdlib Require Import List NArith ZArith Bool Lia Relations.
From Stdlib Require Import Init.Byte.
Import ListNotations.

Open Scope N_scope.

(** ** Constants of ipcz.h *)

Definition IPCZ_PORTAL_STATUS_PEER_CLOSED : Z := Z.shiftl 1 0.
Definition IPCZ_PORTAL_STATUS_DEAD : Z := Z.shiftl 1 1.
Definition IPCZ_GET_PARTIAL : Z := Z.shiftl 1 0.

Inductive IpczResult :=
| IPCZ_RESULT_OK
| IPCZ_RESULT_NOT_FOUND
| IPCZ_RESULT_UNAVAILABLE
| IPCZ_RESULT_RESOURCE_EXHAUSTED
| IPCZ_RESULT_INVALID_ARGUMENT
| IPCZ_RESULT_FAILED_PRECONDITION
| IPCZ_RESULT_OUT_OF_RANGE.

Definition SIZE_MAX : N := 2 ^ 64 - 1.

(** util/safe_math.h: addition clamped at the top of [size_t]. *)
Definition SaturatedAdd (a b : N) : N := N.min (a + b) SIZE_MAX.

(** ** Parcels *)

Record Parcel := mkParcel {
  parcel_sequence_number : N;
  parcel_data : list byte;
  parcel_num_objects : N
}.

Definition data_size (p : Parcel) : N := N.of_nat (length (parcel_data p)).

Definition set_sequence_number (p : Parcel) (n : N) : Parcel :=
  mkParcel n (parcel_data p) (parcel_num_objects p).

(** ** ParcelQueue *)

(** Modelled from the spec: ParcelQueue (sequenced_queue.h and
    parcel_queue.cc are not part of the sources).  Section 3 of the spec:
    a sparse in-order buffer keyed by SequenceNumber.  Slot [i] of
    [entries] holds the parcel numbered [current_sequence_number + i]. *)
Record ParcelQueue := mkParcelQueue {
  current_sequence_number : N;
  entries : list (option Parcel);
  final_sequence_length : option N
}.

Definition empty_queue : ParcelQueue := mkParcelQueue 0 [] None.

Fixpoint num_leading (es : list (option Parcel)) : nat :=
  match es with
  | Some _ :: t => S (num_leading t)
  | _ => O
  end.

Fixpoint leading_size (es : list (option Parcel)) : N :=
  match es with
  | Some p :: t => data_size p + leading_size t
  | _ => 0
  end.

(** One past the index of the last occupied slot, 0 when nothing is queued. *)
Fixpoint occupied_end (es : list (option Parcel)) : nat :=
  match es with
  | [] => O
  | e :: t =>
      match occupied_end t with
      | O => match e with Some _ => 1%nat | None => O end
      | S k => S (S k)
      end
  end.

(** Modelled from the spec: the number of contiguously queued parcels
    starting at [current_sequence_number]. *)
Definition GetNumAvailableElements (q : ParcelQueue) : N :=
  N.of_nat (num_leading (entries q)).

(** Modelled from the spec: total data size of those parcels. *)
Definition GetTotalAvailableElementSize (q : ParcelQueue) : N :=
  leading_size (entries q).

(** Modelled from the spec: the length of the sequence received so far,
    i.e. the first number at or after [current_sequence_number] that is not
    queued. *)
Definition GetCurrentSequenceLength (q : ParcelQueue) : N :=
  current_sequence_number q + GetNumAvailableElements q.

(** Modelled from the spec: [has_next_element()] iff the parcel at
    [current_sequence_number] is present. *)
Definition HasNextElement (q : ParcelQueue) : bool :=
  match entries q with
  | Some _ :: _ => true
  | _ => false
  end.

Definition NextElement (q : ParcelQueue) : option Parcel :=
  match entries q with
  | Some p :: _ => Some p
  | _ => None
  end.

Fixpoint set_slot (es : list (option Parcel)) (i : nat) (p : Parcel)
  : option (list (option Parcel)) :=
  match i, es with
  | O, None :: t => Some (Some p :: t)
  | O, Some _ :: _ => None
  | O, [] => Some [Some p]
  | S i', e :: t => option_map (cons e) (set_slot t i' p)
  | S i', [] => option_map (cons None) (set_slot [] i' p)
  end.

(** Modelled from the spec: [push(n, parcel)] succeeds only if
    [n >= current_sequence_number], [n] was not pushed before, and [n] is
    below the final length when there is one. *)
Definition Push (q : ParcelQueue) (n : N) (p : Parcel) : option ParcelQueue :=
  if n <? current_sequence_number q then None
  else
    match final_sequence_length q with
    | Some f => if f <=? n then None else
        option_map (fun es => mkParcelQueue (current_sequence_number q) es
                                            (final_sequence_length q))
                   (set_slot (entries q)
                             (N.to_nat (n - current_sequence_number q)) p)
    | None =>
        option_map (fun es => mkParcelQueue (current_sequence_number q) es
                                            (final_sequence_length q))
                   (set_slot (entries q)
                             (N.to_nat (n - current_sequence_number q)) p)
    end.

(** Modelled from the spec: pops the parcel at [current_sequence_number]. *)
Definition Pop (q : ParcelQueue) : option (Parcel * ParcelQueue) :=
  match entries q with
  | Some p :: t =>
      Some (p, mkParcelQueue (current_sequence_number q + 1) t
                             (final_sequence_length q))
  | _ => None
  end.

Definition queue_is_empty (q : ParcelQueue) : bool :=
  forallb (fun e => match e with None => true | Some _ => false end)
          (entries q).

(** Modelled from the spec: [maybe_skip_sequence_number(n)] advances past
    [n] when the queue is empty and [n] is the current number; [None] stands
    for the source's [false] (queue unchanged). *)
Definition MaybeSkipSequenceNumber (q : ParcelQueue) (n : N)
  : option ParcelQueue :=
  if queue_is_empty q && (current_sequence_number q =? n) then
    Some (mkParcelQueue (n + 1) (tl (entries q)) (final_sequence_length q))
  else None.

(** Modelled from the spec: [set_final_sequence_length(F)] succeeds at most
    once, and is rejected when a number at or above [F] has already arrived
    (a parcel [>= F] is queued, or [F] lies below the numbers already
    popped).  [None] stands for the source's [false] (queue unchanged). *)
Definition SetFinalSequenceLength (q : ParcelQueue) (f : N)
  : option ParcelQueue :=
  match final_sequence_length q with
  | Some _ => None
  | None =>
      if f <? current_sequence_number q + N.of_nat (occupied_end (entries q))
      then None
      else Some (mkParcelQueue (current_sequence_number q) (entries q) (Some f))
  end.

(** Modelled from the spec: the final length becomes
    [current_sequence_number]; queued parcels are discarded. *)
Definition ForceTerminateSequence (q : ParcelQueue) : ParcelQueue :=
  mkParcelQueue (current_sequence_number q) [] (Some (current_sequence_number q)).

(** Modelled from the spec: final length set and everything below it popped. *)
Definition IsSequenceFullyConsumed (q : ParcelQueue) : bool :=
  match final_sequence_length q with
  | Some f => f <=? current_sequence_number q
  | None => false
  end.

(** Modelled from the spec: final length not set, or not yet reached by the
    parcels received. *)
Definition ExpectsMoreElements (q : ParcelQueue) : bool :=
  match final_sequence_length q with
  | None => true
  | Some f => GetCurrentSequenceLength q <? f
  end.

Definition ResetInitialSequenceNumber (q : ParcelQueue) (n : N) : ParcelQueue :=
  mkParcelQueue n (entries q) (final_sequence_length q).

(** Modelled from the spec: [Consume(num_bytes, handles)] consumes from the
    head parcel; the parcel is popped once nothing of it remains.  Fails when
    there is no head parcel or it holds less than asked for. *)
Definition Consume (q : ParcelQueue) (num_bytes num_handles : N)
  : option ParcelQueue :=
  match entries q with
  | Some p :: t =>
      if (data_size p <? num_bytes) || (parcel_num_objects p <? num_handles)
      then None
      else
        let p' := mkParcel (parcel_sequence_number p)
                           (skipn (N.to_nat num_bytes) (parcel_data p))
                           (parcel_num_objects p - num_handles) in
        if (data_size p' =? 0) && (parcel_num_objects p' =? 0) then
          Some (mkParcelQueue (current_sequence_number q + 1) t
                              (final_sequence_length q))
        else
          Some (mkParcelQueue (current_sequence_number q) (Some p' :: t)
                              (final_sequence_length q))
  | _ => None
  end.

(** ** Links and edges *)

(** Modelled from the spec: LinkType (link_type.h is not part of the
    sources).  Central links join the two ends of a route and face outward
    from both of them. *)
Inductive LinkType := kCentral | kPeripheralInward | kPeripheralOutward | kBridge.

Definition is_central (t : LinkType) : bool :=
  match t with kCentral => true | _ => false end.
Definition is_peripheral_inward (t : LinkType) : bool :=
  match t with kPeripheralInward => true | _ => false end.
Definition is_peripheral_outward (t : LinkType) : bool :=
  match t with kPeripheralOutward => true | _ => false end.
Definition is_bridge (t : LinkType) : bool :=
  match t with kBridge => true | _ => false end.
Definition is_outward (t : LinkType) : bool :=
  is_central t || is_peripheral_outward t.

Inductive LinkSide := kA | kB.

(** A RouterLink as seen by a Router: an identity, its type, and for a
    LocalRouterLink the Router on its other side ([GetLocalPeer]); a
    RemoteRouterLink has no local peer. *)
Record RouterLink := mkRouterLink {
  link_id : N;
  link_type : LinkType;
  local_peer : option N
}.

(** Modelled from the spec: RouteEdge (route_edge.cc is not part of the
    sources), section 3 and 4.2 of the spec. *)
Record RouteEdge := mkRouteEdge {
  primary_link : option RouterLink;
  decaying_link : option RouterLink;
  length_to_decaying_link : option N;
  length_from_decaying_link : option N
}.

Definition empty_edge : RouteEdge := mkRouteEdge None None None None.

Definition SetPrimaryLink (e : RouteEdge) (l : RouterLink) : RouteEdge :=
  mkRouteEdge (Some l) (decaying_link e) (length_to_decaying_link e)
              (length_from_decaying_link e).

Definition ReleasePrimaryLink (e : RouteEdge) : option RouterLink * RouteEdge :=
  (primary_link e,
   mkRouteEdge None (decaying_link e) (length_to_decaying_link e)
               (length_from_decaying_link e)).

Definition ReleaseDecayingLink (e : RouteEdge) : option RouterLink * RouteEdge :=
  (decaying_link e,
   mkRouteEdge (primary_link e) None (length_to_decaying_link e)
               (length_from_decaying_link e)).

(** Modelled from the spec: moves the primary link into the decaying slot;
    fails (edge unchanged) when a decaying link already exists. *)
Definition BeginPrimaryLinkDecay (e : RouteEdge) : RouteEdge :=
  match decaying_link e with
  | Some _ => e
  | None => mkRouteEdge None (primary_link e) (length_to_decaying_link e)
                        (length_from_decaying_link e)
  end.

Definition set_length_to_decaying_link (e : RouteEdge) (n : N) : RouteEdge :=
  mkRouteEdge (primary_link e) (decaying_link e) (Some n)
              (length_from_decaying_link e).

Definition set_length_from_decaying_link (e : RouteEdge) (n : N) : RouteEdge :=
  mkRouteEdge (primary_link e) (decaying_link e) (length_to_decaying_link e)
              (Some n).

(** Modelled from the spec: "no decay in progress". *)
Definition is_stable (e : RouteEdge) : bool :=
  match decaying_link e with None => true | Some _ => false end.

Definition GetLocalPeer (e : RouteEdge) : option N :=
  match primary_link e with Some l => local_peer l | None => None end.

(** Modelled from the spec: parcel [n] goes on the decaying link iff there
    is one and [n] is below [length_to_decaying] (when that is set). *)
Definition ShouldTransmitOnDecayingLink (e : RouteEdge) (n : N) : bool :=
  match decaying_link e with
  | None => false
  | Some _ =>
      match length_to_decaying_link e with
      | None => true
      | Some len => n <? len
      end
  end.

(** Modelled from the spec: [maybe_finish_decay(sent, received)] is true iff
    a decaying link exists and both boundaries are reached; then the
    decaying link is dropped.  [Some e'] stands for [true] with the new
    edge, [None] for [false] (edge unchanged). *)
Definition MaybeFinishDecay (e : RouteEdge) (sent received : N)
  : option RouteEdge :=
  match decaying_link e, length_to_decaying_link e, length_from_decaying_link e with
  | Some _, Some to_len, Some from_len =>
      if (to_len <=? sent) && (from_len <=? received)
      then Some (mkRouteEdge (primary_link e) None None None)
      else None
  | _, _, _ => None
  end.

(** ** Router state *)

Record IpczPortalStatus := mkStatus {
  flags : Z;
  num_local_parcels : N;
  num_local_bytes : N;
  num_remote_parcels : N;
  num_remote_bytes : N
}.

Definition initial_status : IpczPortalStatus := mkStatus 0 0 0 0 0.

Definition status_or_flags (s : IpczPortalStatus) (bit : Z) : IpczPortalStatus :=
  mkStatus (Z.lor (flags s) bit) (num_local_parcels s) (num_local_bytes s)
           (num_remote_parcels s) (num_remote_bytes s).

Definition status_set_local (s : IpczPortalStatus) (np nb : N) : IpczPortalStatus :=
  mkStatus (flags s) np nb (num_remote_parcels s) (num_remote_bytes s).

Definition status_set_remote (s : IpczPortalStatus) (np nb : N) : IpczPortalStatus :=
  mkStatus (flags s) (num_local_parcels s) (num_local_bytes s) np nb.

(** The fields of router.h guarded by [mutex_].  The TrapSet is outside this
    development: it is represented by the calls the Router makes on it,
    recorded as effects. *)
Record Router := mkRouter {
  router_id : N;
  outward_edge : RouteEdge;
  inward_edge : option RouteEdge;
  bridge : option RouteEdge;
  outbound_parcels : ParcelQueue;
  inbound_parcels : ParcelQueue;
  status : IpczPortalStatus;
  is_disconnected : bool
}.

Definition new_router (id : N) : Router :=
  mkRouter id empty_edge None None empty_queue empty_queue initial_status false.

Definition set_outbound (r : Router) (q : ParcelQueue) : Router :=
  mkRouter (router_id r) (outward_edge r) (inward_edge r) (bridge r) q
           (inbound_parcels r) (status r) (is_disconnected r).
Definition set_inbound (r : Router) (q : ParcelQueue) : Router :=
  mkRouter (router_id r) (outward_edge r) (inward_edge r) (bridge r)
           (outbound_parcels r) q (status r) (is_disconnected r).
Definition set_status (r : Router) (s : IpczPortalStatus) : Router :=
  mkRouter (router_id r) (outward_edge r) (inward_edge r) (bridge r)
           (outbound_parcels r) (inbound_parcels r) s (is_disconnected r).
Definition set_edges (r : Router) (o : RouteEdge) (i b : option RouteEdge) : Router :=
  mkRouter (router_id r) o i b (outbound_parcels r) (inbound_parcels r)
           (status r) (is_disconnected r).
Definition set_disconnected (r : Router) : Router :=
  mkRouter (router_id r) (outward_edge r) (inward_edge r) (bridge r)
           (outbound_parcels r) (inbound_parcels r) (status r) true.

Definition peer_closed (r : Router) : bool :=
  negb (Z.land (flags (status r)) IPCZ_PORTAL_STATUS_PEER_CLOSED =? 0)%Z.
Definition dead (r : Router) : bool :=
  negb (Z.land (flags (status r)) IPCZ_PORTAL_STATUS_DEAD =? 0)%Z.

(** ** Effects: calls made on links, traps and NodeLinks *)

Inductive UpdateReason :=
  kNewLocalParcel | kPeerClosed | kLocalParcelConsumed | kRemoteActivity.

Inductive Effect :=
| TrapsRemoveAll
| TrapsUpdatePortalStatus (reason : UpdateReason) (s : IpczPortalStatus)
| LinkAcceptParcel (l : RouterLink) (p : Parcel)
| LinkAcceptRouteClosure (l : RouterLink) (n : N)
| LinkAcceptRouteDisconnected (l : RouterLink)
| LinkDeactivate (l : RouterLink)
| LinkMarkSideStable (l : RouterLink)
| LinkUpdateInboundQueueState (l : RouterLink) (np nb : N)
| LinkNotifyDataConsumed (l : RouterLink)
| LinkEnablePeerMonitoring (l : RouterLink) (b : bool)
| LinkFlushOtherSideIfWaiting (l : RouterLink)
| StartBridgeBypass
| StartSelfBypass.

(** ** Router operations (router.cc) *)

Inductive FlushBehavior := kDefault | kForceProxyBypassAttempt.

Definition flush_behavior_is_force (b : FlushBehavior) : bool :=
  match b with kForceProxyBypassAttempt => true | kDefault => false end.

Definition isSome {A} (o : option A) : bool :=
  match o with Some _ => true | None => false end.

Definition ParcelsToFlush := list (RouterLink * Parcel).

(** The anonymous-namespace helper [CollectParcelsToFlush]: pops parcels
    while the link each must travel on is known.  Each iteration pops one
    entry, so [length (entries queue)] iterations suffice. *)
Fixpoint collect_loop (fuel : nat) (queue : ParcelQueue) (edge : RouteEdge)
         (parcels : ParcelsToFlush) : ParcelQueue * ParcelsToFlush :=
  match fuel with
  | O => (queue, parcels)
  | S fuel' =>
      if HasNextElement queue then
        let n := current_sequence_number queue in
        let link :=
          if isSome (decaying_link edge) && ShouldTransmitOnDecayingLink edge n
          then decaying_link edge
          else if isSome (primary_link edge)
                  && negb (ShouldTransmitOnDecayingLink edge n)
          then primary_link edge
          else None in
        match link with
        | None => (queue, parcels)
        | Some l =>
            match Pop queue with
            | Some (p, queue') => collect_loop fuel' queue' edge (parcels ++ [(l, p)])
            | None => (queue, parcels)
            end
        end
      else (queue, parcels)
  end.

Definition CollectParcelsToFlush (queue : ParcelQueue) (edge : RouteEdge)
           (parcels : ParcelsToFlush) : ParcelQueue * ParcelsToFlush :=
  collect_loop (length (entries queue)) queue edge parcels.

Definition edge_primary (e : option RouteEdge) : option RouterLink :=
  match e with Some e => primary_link e | None => None end.
Definition edge_decaying (e : option RouteEdge) : option RouterLink :=
  match e with Some e => decaying_link e | None => None end.

Definition opt_effect (o : option RouterLink) (f : RouterLink -> Effect)
  : list Effect :=
  match o with Some l => [f l] | None => [] end.

Section RouterOps.

(** The shared state behind a link ([RouterLinkState]) is outside this
    development; the Router only observes it through these calls. *)
Variable TryLockForClosure : RouterLink -> bool.
Variable UpdateInboundQueueState : RouterLink -> N -> N -> bool.
Variable GetPeerQueueState : RouterLink -> N * N.
(** Result of [MaybeStartSelfBypass()] (the bypass protocol), called by
    [Flush] after the mutex is released. *)
Variable MaybeStartSelfBypass : Router -> bool.

(** The steps of the mutex-guarded block of [Router::Flush], in source
    order. *)

(** The bridge link snapshot: its primary link, else its decaying link. *)
Definition flush_bridge_link (r : Router) : option RouterLink :=
  match bridge r with
  | Some b => match primary_link b with
              | Some l => Some l
              | None => decaying_link b
              end
  | None => None
  end.

(** Decay of the outward edge: the new edge and [outward_link_decayed]. *)
Definition flush_outward_decay (r : Router) (outbound1 : ParcelQueue)
  : RouteEdge * bool :=
  match MaybeFinishDecay (outward_edge r) (current_sequence_number outbound1)
                         (GetCurrentSequenceLength (inbound_parcels r)) with
  | Some e => (e, true)
  | None => (outward_edge r, false)
  end.

(** Inbound parcels flushed along the inward edge (proxies) or the bridge,
    then decay of the inward edge: the inbound queue, the parcels, the inward
    edge and [inward_link_decayed]. *)
Definition flush_inward (r : Router) (outbound1 : ParcelQueue)
           (parcels1 : ParcelsToFlush)
  : ParcelQueue * ParcelsToFlush * option RouteEdge * bool :=
  match inward_edge r with
  | Some ie =>
      let '(q, ps) := CollectParcelsToFlush (inbound_parcels r) ie parcels1 in
      match MaybeFinishDecay ie (current_sequence_number q)
                             (GetCurrentSequenceLength outbound1) with
      | Some ie' => (q, ps, Some ie', true)
      | None => (q, ps, Some ie, false)
      end
  | None =>
      match flush_bridge_link r, bridge r with
      | Some _, Some b =>
          let '(q, ps) := CollectParcelsToFlush (inbound_parcels r) b parcels1 in
          (q, ps, None, false)
      | _, _ => (inbound_parcels r, parcels1, None, false)
      end
  end.

(** Decay of the bridge. *)
Definition flush_bridge_decay (r : Router) (inbound1 outbound1 : ParcelQueue)
  : option RouteEdge :=
  match bridge r with
  | Some b =>
      match MaybeFinishDecay b (current_sequence_number inbound1)
                             (current_sequence_number outbound1) with
      | Some _ => None
      | None => Some b
      end
  | None => None
  end.

(** Closure of the outward side: the outward edge, [dead_outward_link] and
    [final_outward_sequence_length]. *)
Definition flush_outward_closure (on_central_link : bool)
           (outward_link : option RouterLink) (outward_edge1 : RouteEdge)
           (outbound1 inbound1 : ParcelQueue)
  : RouteEdge * option RouterLink * option N :=
  if on_central_link && IsSequenceFullyConsumed outbound1
     && (match outward_link with Some l => TryLockForClosure l | None => false end)
  then
    let '(l, e) := ReleasePrimaryLink outward_edge1 in
    (e, l, final_sequence_length outbound1)
  else if negb (ExpectsMoreElements inbound1) then
    let '(l, e) := ReleasePrimaryLink outward_edge1 in (e, l, None)
  else (outward_edge1, None, None).

(** Closure of the inward side: the inward edge, the bridge,
    [dead_inward_link], [dead_bridge_link], what is left in [bridge_link]
    (it is moved into [dead_bridge_link]) and
    [final_inward_sequence_length]. *)
Definition flush_inward_closure (inbound1 : ParcelQueue)
           (inward_edge1 bridge1 : option RouteEdge) (bridge_link : option RouterLink)
  : option RouteEdge * option RouteEdge * option RouterLink * option RouterLink
    * option RouterLink * option N :=
  if IsSequenceFullyConsumed inbound1 then
    match inward_edge1 with
    | Some ie =>
        let '(l, ie') := ReleasePrimaryLink ie in
        (Some ie', bridge1, l, None, bridge_link, final_sequence_length inbound1)
    | None =>
        (None, None, None, bridge_link, None, final_sequence_length inbound1)
    end
  else (inward_edge1, bridge1, None, None, bridge_link, None).

(** [Router::Flush]: the state the mutex-guarded block leaves behind, and
    the calls made on links after it, in order. *)
Definition Flush (behavior : FlushBehavior) (r : Router) : Router * list Effect :=
  let outward_link := primary_link (outward_edge r) in
  let inward_link := edge_primary (inward_edge r) in
  let decaying_outward_link := decaying_link (outward_edge r) in
  let decaying_inward_link := edge_decaying (inward_edge r) in
  let on_central_link :=
    match outward_link with Some l => is_central (link_type l) | None => false end in
  let bridge_link := flush_bridge_link r in
  let '(outbound1, parcels1) :=
    CollectParcelsToFlush (outbound_parcels r) (outward_edge r) [] in
  let '(outward_edge1, outward_link_decayed) := flush_outward_decay r outbound1 in
  let '(inbound1, parcels2, inward_edge1, inward_link_decayed) :=
    flush_inward r outbound1 parcels1 in
  let bridge1 := flush_bridge_decay r inbound1 outbound1 in
  let inward_edge_stable := negb (isSome decaying_inward_link) || inward_link_decayed in
  let outward_edge_stable :=
    isSome outward_link
    && (negb (isSome decaying_outward_link) || outward_link_decayed) in
  let dropped_last_decaying_link :=
    on_central_link && (inward_link_decayed || outward_link_decayed)
    && (inward_edge_stable && outward_edge_stable) in
  let mark_stable :=
    if dropped_last_decaying_link then opt_effect outward_link LinkMarkSideStable
    else [] in
  let '(outward_edge2, dead_outward_link, final_outward_sequence_length) :=
    flush_outward_closure on_central_link outward_link outward_edge1 outbound1
                          inbound1 in
  let '(inward_edge2, bridge2, dead_inward_link, dead_bridge_link, bridge_link',
        final_inward_sequence_length) :=
    flush_inward_closure inbound1 inward_edge1 bridge1 bridge_link in
  let r' := mkRouter (router_id r) outward_edge2 inward_edge2 bridge2 outbound1
                     inbound1 (status r) (is_disconnected r) in
  let sends := map (fun '(l, p) => LinkAcceptParcel l p) parcels2 in
  let decayed :=
    (if outward_link_decayed then opt_effect decaying_outward_link LinkDeactivate
     else [])
    ++ (if inward_link_decayed then opt_effect decaying_inward_link LinkDeactivate
        else []) in
  let bridge_bypass :=
    if isSome bridge_link' && isSome outward_link && negb (isSome inward_link)
       && negb (isSome decaying_inward_link) && negb (isSome decaying_outward_link)
    then [StartBridgeBypass] else [] in
  let closure_of (l : RouterLink) (f : option N) :=
    match f with Some n => [LinkAcceptRouteClosure l n] | None => [] end in
  let dead_links :=
    match dead_outward_link with
    | Some l => closure_of l final_outward_sequence_length ++ [LinkDeactivate l]
    | None => []
    end
    ++ match dead_inward_link with
       | Some l => closure_of l final_inward_sequence_length ++ [LinkDeactivate l]
       | None => []
       end
    ++ match dead_bridge_link with
       | Some l => closure_of l final_inward_sequence_length
       | None => []
       end in
  let bypass :=
    if isSome dead_outward_link || negb on_central_link then []
    else if negb dropped_last_decaying_link && negb (flush_behavior_is_force behavior)
    then []
    else if isSome inward_link && MaybeStartSelfBypass r' then [StartSelfBypass]
    else (if isSome inward_link then [StartSelfBypass] else [])
         ++ opt_effect outward_link LinkFlushOtherSideIfWaiting in
  (r', mark_stable ++ sends ++ decayed ++ bridge_bypass ++ dead_links ++ bypass).

(** [Router::SendOutboundParcel]: the result, the parcel with its assigned
    sequence number, the new state and the calls made.  [ABSL_ASSERT] is
    compiled out of release builds: a failed push leaves the queue as it
    was. *)
Definition SendOutboundParcel (r : Router) (parcel : Parcel)
  : IpczResult * Parcel * Router * list Effect :=
  if isSome (final_sequence_length (inbound_parcels r)) then
    (IPCZ_RESULT_NOT_FOUND, parcel, r, [])
  else
    let sequence_number := GetCurrentSequenceLength (outbound_parcels r) in
    let parcel := set_sequence_number parcel sequence_number in
    match primary_link (outward_edge r),
          MaybeSkipSequenceNumber (outbound_parcels r) sequence_number with
    | Some link, Some q =>
        (IPCZ_RESULT_OK, parcel, set_outbound r q, [LinkAcceptParcel link parcel])
    | _, _ =>
        let q := match Push (outbound_parcels r) sequence_number parcel with
                 | Some q => q
                 | None => outbound_parcels r
                 end in
        let '(r', eff) := Flush kDefault (set_outbound r q) in
        (IPCZ_RESULT_OK, parcel, r', eff)
    end.

(** [Router::CloseRoute]. *)
Definition CloseRoute (r : Router) : Router * list Effect :=
  let q := outbound_parcels r in
  let q' := match SetFinalSequenceLength q (GetCurrentSequenceLength q) with
            | Some q' => q'
            | None => q
            end in
  let '(r', eff) := Flush kDefault (set_outbound r q') in
  (r', TrapsRemoveAll :: eff).

(** [Router::AcceptInboundParcel]. *)
Definition AcceptInboundParcel (r : Router) (parcel : Parcel)
  : bool * Router * list Effect :=
  match Push (inbound_parcels r) (parcel_sequence_number parcel) parcel with
  | None => (true, r, [])
  | Some q =>
      let r1 := set_inbound r q in
      let '(r2, eff1) :=
        match inward_edge r with
        | Some _ => (r1, [])
        | None =>
            let s := status_set_local (status r) (GetNumAvailableElements q)
                                      (GetTotalAvailableElementSize q) in
            let queue_state :=
              match primary_link (outward_edge r) with
              | Some l =>
                  if is_central (link_type l)
                  then [LinkUpdateInboundQueueState l (num_local_parcels s)
                                                      (num_local_bytes s)]
                  else []
              | None => []
              end in
            (set_status r1 s, TrapsUpdatePortalStatus kNewLocalParcel s :: queue_state)
        end in
      let '(r3, eff2) := Flush kDefault r2 in
      (true, r3, eff1 ++ eff2)
  end.

(** [Router::AcceptOutboundParcel]. *)
Definition AcceptOutboundParcel (r : Router) (parcel : Parcel)
  : bool * Router * list Effect :=
  match Push (outbound_parcels r) (parcel_sequence_number parcel) parcel with
  | None => (true, r, [])
  | Some q =>
      let '(r', eff) := Flush kDefault (set_outbound r q) in (true, r', eff)
  end.

(** [Router::AcceptRouteClosureFrom]. *)
Definition AcceptRouteClosureFrom (r : Router) (link_type : LinkType)
           (sequence_length : N) : bool * Router * list Effect :=
  let flush_after (r1 : Router) (eff1 : list Effect) :=
    let '(r2, eff2) := Flush kDefault r1 in (true, r2, eff1 ++ eff2) in
  if is_outward link_type then
    match SetFinalSequenceLength (inbound_parcels r) sequence_length with
    | None =>
        (match final_sequence_length (inbound_parcels r) with
         | Some f => f <=? sequence_length
         | None => false
         end, r, [])
    | Some q =>
        let r1 := set_inbound r q in
        if negb (isSome (inward_edge r)) && negb (isSome (bridge r)) then
          let s1 := status_or_flags (status r) IPCZ_PORTAL_STATUS_PEER_CLOSED in
          let s2 := if IsSequenceFullyConsumed q
                    then status_or_flags s1 IPCZ_PORTAL_STATUS_DEAD else s1 in
          flush_after (set_status r1 s2) [TrapsUpdatePortalStatus kPeerClosed s2]
        else flush_after r1 []
    end
  else if is_peripheral_inward link_type then
    match SetFinalSequenceLength (outbound_parcels r) sequence_length with
    | None =>
        (match final_sequence_length (outbound_parcels r) with
         | Some f => f <=? sequence_length
         | None => false
         end, r, [])
    | Some q => flush_after (set_outbound r q) []
    end
  else if is_bridge link_type then
    match SetFinalSequenceLength (outbound_parcels r) sequence_length with
    | None => (false, r, [])
    | Some q =>
        let r1 := set_outbound r q in
        flush_after (set_edges r1 (outward_edge r1) (inward_edge r1) None) []
    end
  else flush_after r [].

Definition strip_edge (e : RouteEdge) : RouteEdge :=
  snd (ReleaseDecayingLink (snd (ReleasePrimaryLink e))).

Definition edge_links (e : RouteEdge) : list (option RouterLink) :=
  [fst (ReleasePrimaryLink e); fst (ReleaseDecayingLink (snd (ReleasePrimaryLink e)))].

(** [Router::AcceptRouteDisconnectedFrom]. *)
Definition AcceptRouteDisconnectedFrom (r : Router) (link_type : LinkType)
  : bool * Router * list Effect :=
  let r1 := set_disconnected r in
  let r2 := if is_peripheral_inward link_type
            then set_outbound r1 (ForceTerminateSequence (outbound_parcels r1))
            else set_inbound r1 (ForceTerminateSequence (inbound_parcels r1)) in
  let forwarding_links :=
    edge_links (outward_edge r2)
    ++ match inward_edge r2, bridge r2 with
       | Some ie, _ => edge_links ie
       | None, Some b => edge_links b
       | None, None => []
       end in
  let r3 := set_edges r2 (strip_edge (outward_edge r2))
                      (option_map strip_edge (inward_edge r2))
                      (match inward_edge r2 with
                       | Some _ => bridge r2
                       | None => option_map strip_edge (bridge r2)
                       end) in
  let '(r4, eff1) :=
    match inward_edge r2, bridge r2 with
    | None, None =>
        let s1 := status_or_flags (status r3) IPCZ_PORTAL_STATUS_PEER_CLOSED in
        let s2 := if IsSequenceFullyConsumed (inbound_parcels r3)
                  then status_or_flags s1 IPCZ_PORTAL_STATUS_DEAD else s1 in
        (set_status r3 s2, [TrapsUpdatePortalStatus kPeerClosed s2])
    | _, _ => (r3, [])
    end in
  let forwarded :=
    flat_map (fun o => match o with
                       | Some l => [LinkAcceptRouteDisconnected l; LinkDeactivate l]
                       | None => []
                       end) forwarding_links in
  let '(r5, eff2) := Flush kDefault r4 in
  (true, r5, eff1 ++ forwarded ++ eff2).

(** Whether the TrapSet still has a trap watching remote queue state
    ([traps_.need_remote_state()]). *)
Variable TrapsNeedRemoteState : Router -> bool.

(** [Router::NotifyPeerConsumedData]. *)
Definition NotifyPeerConsumedData (r : Router) : Router * list Effect :=
  match primary_link (outward_edge r) with
  | None => (r, [])
  | Some outward_link =>
      if negb (is_central (link_type outward_link)) || isSome (inward_edge r)
      then (r, [])
      else
        let '(np, nb) := GetPeerQueueState outward_link in
        let s := status_set_remote (status r) np nb in
        let r' := set_status r s in
        (r', TrapsUpdatePortalStatus kRemoteActivity s
               :: (if negb (TrapsNeedRemoteState r')
                   then [LinkEnablePeerMonitoring outward_link false] else []))
  end.

(** Outcome of a get: result, the values left in [*num_bytes] and
    [*num_handles] ([None] for a null pointer), the bytes copied to [data],
    the new state and the calls made. *)
Record GetOutcome := mkGetOutcome {
  get_result : IpczResult;
  out_num_bytes : option N;
  out_num_handles : option N;
  out_data : list byte;
  get_router : Router;
  get_effects : list Effect
}.

Definition size_or_zero (o : option N) : N :=
  match o with Some n => n | None => 0 end.

(** The common tail of [GetNextInboundParcel] and
    [CommitGetNextIncomingParcel] after [Consume]. *)
Definition after_consume (r : Router) (q : ParcelQueue) : Router * list Effect :=
  let s1 := status_set_local (status r) (GetNumAvailableElements q)
                             (GetTotalAvailableElementSize q) in
  let s2 := if IsSequenceFullyConsumed q
            then status_or_flags s1 IPCZ_PORTAL_STATUS_DEAD else s1 in
  let link_calls :=
    match primary_link (outward_edge r) with
    | Some l =>
        if is_central (link_type l) then
          LinkUpdateInboundQueueState l (num_local_parcels s2) (num_local_bytes s2)
          :: (if UpdateInboundQueueState l (num_local_parcels s2) (num_local_bytes s2)
              then [LinkNotifyDataConsumed l] else [])
        else []
    | None => []
    end in
  (set_status (set_inbound r q) s2,
   TrapsUpdatePortalStatus kLocalParcelConsumed s2 :: link_calls).

(** [Router::GetNextInboundParcel]. *)
Definition GetNextInboundParcel (r : Router) (flags : Z) (num_bytes num_handles : option N)
  : GetOutcome :=
  let inbound := inbound_parcels r in
  if IsSequenceFullyConsumed inbound then
    mkGetOutcome IPCZ_RESULT_NOT_FOUND num_bytes num_handles [] r []
  else
    match NextElement inbound with
    | None => mkGetOutcome IPCZ_RESULT_UNAVAILABLE num_bytes num_handles [] r []
    | Some p =>
        let allow_partial := negb (Z.land flags IPCZ_GET_PARTIAL =? 0)%Z in
        let data_capacity := size_or_zero num_bytes in
        let handles_capacity := size_or_zero num_handles in
        let data_size' :=
          if allow_partial then N.min (data_size p) data_capacity else data_size p in
        let handles_size :=
          if allow_partial then N.min (parcel_num_objects p) handles_capacity
          else parcel_num_objects p in
        let num_bytes' := option_map (fun _ => data_size') num_bytes in
        let num_handles' := option_map (fun _ => handles_size) num_handles in
        let consuming_whole_parcel :=
          (data_size' <=? data_capacity) && (handles_size <=? handles_capacity) in
        if negb consuming_whole_parcel && negb allow_partial then
          mkGetOutcome IPCZ_RESULT_RESOURCE_EXHAUSTED num_bytes' num_handles' [] r []
        else
          let copied := firstn (N.to_nat data_size') (parcel_data p) in
          let q := match Consume inbound data_size' handles_size with
                   | Some q => q
                   | None => inbound
                   end in
          let '(r', eff) := after_consume r q in
          mkGetOutcome IPCZ_RESULT_OK num_bytes' num_handles' copied r' eff
    end.

(** [Router::CommitGetNextIncomingParcel]. *)
Definition CommitGetNextIncomingParcel (r : Router) (num_data_bytes_consumed
           num_handles : N) : IpczResult * Router * list Effect :=
  if isSome (inward_edge r) then (IPCZ_RESULT_INVALID_ARGUMENT, r, [])
  else
    match NextElement (inbound_parcels r) with
    | None => (IPCZ_RESULT_INVALID_ARGUMENT, r, [])
    | Some p =>
        if (data_size p <? num_data_bytes_consumed)
           || (parcel_num_objects p <? num_handles)
        then (IPCZ_RESULT_OUT_OF_RANGE, r, [])
        else
          let q := match Consume (inbound_parcels r) num_data_bytes_consumed
                                 num_handles with
                   | Some q => q
                   | None => inbound_parcels r
                   end in
          let '(r', eff) := after_consume r q in
          (IPCZ_RESULT_OK, r', eff)
    end.

(** [Router::Trap].  [need_remote_state] is computed by the source from the
    condition flags; [add_result] is the outcome of [traps_.Add], which
    belongs to the TrapSet. *)
Definition Trap (r : Router) (need_remote_state : bool) (add_result : IpczResult)
  : IpczResult * Router * list Effect :=
  let outward_link := primary_link (outward_edge r) in
  let r1 :=
    if need_remote_state then
      let np := GetNumAvailableElements (outbound_parcels r) in
      let nb := GetTotalAvailableElementSize (outbound_parcels r) in
      match outward_link with
      | Some l =>
          if is_central (link_type l) then
            let '(pp, pb) := GetPeerQueueState l in
            set_status r (status_set_remote (status r) (SaturatedAdd np pp)
                                            (SaturatedAdd nb pb))
          else set_status r (status_set_remote (status r) np nb)
      | None => set_status r (status_set_remote (status r) np nb)
      end
    else r in
  let already_monitoring_remote_state := TrapsNeedRemoteState r in
  match add_result with
  | IPCZ_RESULT_OK =>
      if negb need_remote_state then (add_result, r1, [])
      else
        let enable :=
          if negb already_monitoring_remote_state
          then opt_effect outward_link (fun l => LinkEnablePeerMonitoring l true)
          else [] in
        let '(r2, eff) := NotifyPeerConsumedData r1 in
        (IPCZ_RESULT_OK, r2, enable ++ eff)
  | _ => (add_result, r1, [])
  end.

(** [Router::SetOutwardLink]. *)
Definition SetOutwardLink (r : Router) (link : RouterLink) : Router * list Effect :=
  let mark :=
    if is_central (link_type link) && is_stable (outward_edge r)
       && match inward_edge r with None => true | Some ie => is_stable ie end
    then [LinkMarkSideStable link] else [] in
  if negb (is_disconnected r) then
    let r1 := set_edges r (SetPrimaryLink (outward_edge r) link)
                        (inward_edge r) (bridge r) in
    let '(r2, eff) := Flush kForceProxyBypassAttempt r1 in
    (r2, mark ++ eff)
  else (r, mark ++ [LinkAcceptRouteDisconnected link; LinkDeactivate link]).

(** [Router::HasLocalPeer]. *)
Definition HasLocalPeer (r : Router) (other : Router) : bool :=
  match GetLocalPeer (outward_edge r) with
  | Some id => id =? router_id other
  | None => false
  end.

(** [Router::MergeRoute] on [r] with argument [other].  [bridge_a] and
    [bridge_b] are the two ends of the LocalRouterLink pair it creates
    (side A held by [r], side B by [other]).  Only [r] is flushed. *)
Definition MergeRoute (r other : Router) (bridge_a bridge_b : N)
  : IpczResult * Router * Router * list Effect :=
  if HasLocalPeer r other || (router_id other =? router_id r) then
    (IPCZ_RESULT_INVALID_ARGUMENT, r, other, [])
  else if isSome (inward_edge r) || isSome (inward_edge other)
          || isSome (bridge r) || isSome (bridge other) then
    (IPCZ_RESULT_INVALID_ARGUMENT, r, other, [])
  else if (0 <? current_sequence_number (inbound_parcels r))
          || (0 <? GetCurrentSequenceLength (outbound_parcels r))
          || (0 <? current_sequence_number (inbound_parcels other))
          || (0 <? GetCurrentSequenceLength (outbound_parcels other)) then
    (IPCZ_RESULT_FAILED_PRECONDITION, r, other, [])
  else
    let link_a := mkRouterLink bridge_a kBridge (Some (router_id other)) in
    let link_b := mkRouterLink bridge_b kBridge (Some (router_id r)) in
    let r1 := set_edges r (outward_edge r) (inward_edge r)
                        (Some (SetPrimaryLink empty_edge link_a)) in
    let other1 := set_edges other (outward_edge other) (inward_edge other)
                            (Some (SetPrimaryLink empty_edge link_b)) in
    let '(r2, eff) := Flush kDefault r1 in
    (IPCZ_RESULT_OK, r2, other1, eff).

(** ** Route extension across nodes *)

(** A NodeLink as far as routers see it: the sublink ids registered on it
    ([sublinks_] of node_link.cc). *)
Record NodeLink := mkNodeLink { sublinks : list N }.

(** [NodeLink::AddRemoteRouterLink]: registration fails when the sublink id
    is already in use; otherwise the new RemoteRouterLink is returned. *)
Definition AddRemoteRouterLink (nl : NodeLink) (sublink : N) (type : LinkType)
  : option RouterLink * NodeLink :=
  if existsb (N.eqb sublink) (sublinks nl) then (None, nl)
  else (Some (mkRouterLink sublink type None), mkNodeLink (sublink :: sublinks nl)).

Record RouterDescriptor := mkRouterDescriptor {
  new_sublink : N;
  next_outgoing_sequence_number : N;
  next_incoming_sequence_number : N;
  descriptor_peer_closed : bool;
  closed_peer_sequence_length : N
}.

(** The part of [Router::Deserialize] after the peer-closed state is
    applied: registering the new sublink, then the disconnection path when
    that fails on a route whose peer is not closed, then the final flush. *)
Definition deserialize_link (descriptor : RouterDescriptor) (from_node_link : NodeLink)
           (router : Router) : option Router * NodeLink * list Effect :=
  let '(new_link, from_node_link') :=
    AddRemoteRouterLink from_node_link (new_sublink descriptor) kPeripheralOutward in
  let '(router1, disconnected) :=
    match new_link with
    | Some l => (set_edges router (SetPrimaryLink (outward_edge router) l)
                           (inward_edge router) (bridge router), false)
    | None => (router, negb (descriptor_peer_closed descriptor))
    end in
  let '(router2, eff1) :=
    if disconnected then
      let '(_, r', eff) := AcceptRouteDisconnectedFrom router1 kPeripheralOutward in
      (r', eff)
    else (router1, []) in
  let '(router3, eff2) := Flush kForceProxyBypassAttempt router2 in
  (Some router3, from_node_link', eff1 ++ eff2).

(** [Router::Deserialize]; [id] names the newly created Router.  [None] is
    the source's null result. *)
Definition Deserialize (descriptor : RouterDescriptor) (from_node_link : NodeLink)
           (id : N) : option Router * NodeLink * list Effect :=
  let r0 := new_router id in
  let r1 := set_inbound
              (set_outbound r0 (ResetInitialSequenceNumber (outbound_parcels r0)
                                  (next_outgoing_sequence_number descriptor)))
              (ResetInitialSequenceNumber (inbound_parcels r0)
                                          (next_incoming_sequence_number descriptor)) in
  if descriptor_peer_closed descriptor then
    let r2 := set_status r1 (status_or_flags (status r1) IPCZ_PORTAL_STATUS_PEER_CLOSED) in
    match SetFinalSequenceLength (inbound_parcels r2)
                                 (closed_peer_sequence_length descriptor) with
    | None => (None, from_node_link, [])
    | Some q =>
        let r3 := set_inbound r2 q in
        let r4 := if IsSequenceFullyConsumed q
                  then set_status r3 (status_or_flags (status r3) IPCZ_PORTAL_STATUS_DEAD)
                  else r3 in
        deserialize_link descriptor from_node_link r4
    end
  else deserialize_link descriptor from_node_link r1.

(** [Router::SerializeNewRouter]; [new_sublink_id] is the id handed out by
    [to_node_link.memory().AllocateSublinkIds(1)].  The descriptor starts
    from its defaults (not peer-closed, length 0).  When the peer is closed
    the inbound final length is read with [*]; [0] stands for an absent
    one. *)
Definition SerializeNewRouter (r : Router) (to_node_link : NodeLink) (new_sublink_id : N)
  : RouterDescriptor * Router * NodeLink * list Effect :=
  let next_out := GetCurrentSequenceLength (outbound_parcels r) in
  let next_in := current_sequence_number (inbound_parcels r) in
  let final_in := match final_sequence_length (inbound_parcels r) with
                  | Some f => f
                  | None => 0
                  end in
  let '(descriptor, inward) :=
    if peer_closed r then
      (mkRouterDescriptor new_sublink_id next_out next_in true final_in,
       set_length_from_decaying_link
         (set_length_to_decaying_link (BeginPrimaryLinkDecay empty_edge) final_in)
         (current_sequence_number (outbound_parcels r)))
    else (mkRouterDescriptor new_sublink_id next_out next_in false 0, empty_edge) in
  let '(_, to_node_link') :=
    AddRemoteRouterLink to_node_link new_sublink_id kPeripheralInward in
  (descriptor, set_edges r (outward_edge r) (Some inward) (bridge r), to_node_link',
   [TrapsRemoveAll]).

End RouterOps.

(** ** Capacities, two-phase gets and lost links (router.cc) *)

(** [IpczPutLimits] of ipcz.h; its [size] header field is not modelled. *)
Record IpczPutLimits := mkIpczPutLimits {
  max_queued_parcels : N;
  max_queued_bytes : N
}.

(** Outputs of [Router::BeginGetNextIncomingParcel]: the result and the
    values left behind its three out-pointers ([None] for a null pointer).
    [*data] receives a view of the head parcel's bytes. *)
Record BeginGetOutcome := mkBeginGetOutcome {
  begin_result : IpczResult;
  begin_data : option (list byte);
  begin_num_bytes : option N;
  begin_num_handles : option N
}.

(** Links are compared by identity in the source ([==] on pointers); here
    by [link_id]. *)
Definition link_is (o : option RouterLink) (link : RouterLink) : bool :=
  match o with Some l => link_id l =? link_id link | None => false end.

Section MoreRouterOps.

Variable TryLockForClosure : RouterLink -> bool.
Variable MaybeStartSelfBypass : Router -> bool.
(** [RouterLink::GetParcelCapacityInBytes] (outside the sources). *)
Variable GetParcelCapacityInBytes : RouterLink -> IpczPutLimits -> N.

(** [Router::GetOutboundCapacityInBytes]. *)
Definition GetOutboundCapacityInBytes (r : Router) (limits : IpczPutLimits) : N :=
  if (max_queued_bytes limits =? 0) || (max_queued_parcels limits =? 0) then 0
  else if max_queued_parcels limits <=? GetNumAvailableElements (outbound_parcels r)
  then 0
  else if max_queued_bytes limits <? GetTotalAvailableElementSize (outbound_parcels r)
  then 0
  else
    let num_queued_bytes := GetTotalAvailableElementSize (outbound_parcels r) in
    let link_capacity :=
      match primary_link (outward_edge r) with
      | Some link => GetParcelCapacityInBytes link limits
      | None => max_queued_bytes limits
      end in
    if link_capacity <=? num_queued_bytes then 0
    else link_capacity - num_queued_bytes.

(** [Router::GetInboundCapacityInBytes]. *)
Definition GetInboundCapacityInBytes (r : Router) (limits : IpczPutLimits) : N :=
  let num_queued_parcels := GetNumAvailableElements (inbound_parcels r) in
  let num_queued_bytes := GetTotalAvailableElementSize (inbound_parcels r) in
  if (max_queued_bytes limits <=? num_queued_bytes)
     || (max_queued_parcels limits <=? num_queued_parcels)
  then 0
  else max_queued_bytes limits - num_queued_bytes.

(** [Router::BeginGetNextIncomingParcel]; it changes no state. *)
Definition BeginGetNextIncomingParcel (r : Router) (data : option (list byte))
           (num_data_bytes num_handles : option N) : BeginGetOutcome :=
  if isSome (inward_edge r) then
    mkBeginGetOutcome IPCZ_RESULT_INVALID_ARGUMENT data num_data_bytes num_handles
  else
    match NextElement (inbound_parcels r) with
    | None =>
        mkBeginGetOutcome IPCZ_RESULT_UNAVAILABLE data num_data_bytes num_handles
    | Some p =>
        let data' := option_map (fun _ => parcel_data p) data in
        let num_data_bytes' := option_map (fun _ => data_size p) num_data_bytes in
        let num_handles' := option_map (fun _ => parcel_num_objects p) num_handles in
        if (negb (data_size p =? 0) && (negb (isSome data) || negb (isSome num_data_bytes)))
           || (negb (parcel_num_objects p =? 0) && negb (isSome num_handles))
        then mkBeginGetOutcome IPCZ_RESULT_RESOURCE_EXHAUSTED data' num_data_bytes'
                               num_handles'
        else mkBeginGetOutcome IPCZ_RESULT_OK data' num_data_bytes' num_handles'
    end.

(** [Router::NotifyLinkDisconnected]: the lost link is released from the
    slot that holds it, then the route is disconnected from its side. *)
Definition NotifyLinkDisconnected (r : Router) (link : RouterLink)
  : Router * list Effect :=
  let r1 :=
    if link_is (primary_link (outward_edge r)) link then
      set_edges r (snd (ReleasePrimaryLink (outward_edge r))) (inward_edge r) (bridge r)
    else if link_is (decaying_link (outward_edge r)) link then
      set_edges r (snd (ReleaseDecayingLink (outward_edge r))) (inward_edge r) (bridge r)
    else
      match inward_edge r with
      | Some ie =>
          if link_is (primary_link ie) link then
            set_edges r (outward_edge r) (Some (snd (ReleasePrimaryLink ie))) (bridge r)
          else if link_is (decaying_link ie) link then
            set_edges r (outward_edge r) (Some (snd (ReleaseDecayingLink ie))) (bridge r)
          else r
      | None => r
      end in
  let '(_, r2, eff) :=
    AcceptRouteDisconnectedFrom TryLockForClosure MaybeStartSelfBypass r1
      (if is_outward (link_type link) then kPeripheralOutward else kPeripheralInward) in
  (r2, eff).

End MoreRouterOps.

(** ** NodeLink (node_link.cc) *)

Module node_link.

(** The wire messages a NodeLink carries, with their parameters; the
    header's sequence number is set by [Transmit]. *)
Inductive MessageParams :=
| RouteClosed (sublink sequence_length : N)
| RouteDisconnected (sublink : N)
| FlushRouter (sublink : N)
| ProxyWillStop (sublink inbound_sequence_length : N)
| StopProxying (sublink inbound_sequence_length outbound_sequence_length : N)
| StopProxyingToLocalPeer (sublink outbound_sequence_length : N).

Record Message := mkMessage {
  header_sequence_number : N;
  params : MessageParams
}.

(** [NodeLink::Sublink]: the RemoteRouterLink and the Router receiving
    messages on it.  A RemoteRouterLink created for [sublink] is the
    [RouterLink] whose [link_id] is [sublink]. *)
Record Sublink := mkSublink {
  router_link : RouterLink;
  receiver : Router
}.

Record NodeLinkState := mkNodeLinkState {
  sublinks_ : list (N * Sublink);
  active_ : bool;
  next_outgoing_sequence_number_generator_ : N
}.

(** Calls made on the DriverTransport. *)
Inductive TransportCall :=
| TransportTransmit (m : Message)
| TransportDeactivate.

Fixpoint find (m : list (N * Sublink)) (sublink : N) : option Sublink :=
  match m with
  | [] => None
  | (k, s) :: t => if k =? sublink then Some s else find t sublink
  end.

Definition erase (m : list (N * Sublink)) (sublink : N) : list (N * Sublink) :=
  filter (fun e => negb (fst e =? sublink)) m.

(** [NodeLink::AddRemoteRouterLink]; [try_emplace] leaves an existing
    entry in place.  The LinkSide of the new link is not modelled. *)
Definition AddRemoteRouterLink (nl : NodeLinkState) (sublink : N) (type : LinkType)
           (router : Router) : option RouterLink * NodeLinkState :=
  let link := mkRouterLink sublink type None in
  match find (sublinks_ nl) sublink with
  | Some _ => (None, nl)
  | None =>
      (Some link,
       mkNodeLinkState ((sublink, mkSublink link router) :: sublinks_ nl) (active_ nl)
                       (next_outgoing_sequence_number_generator_ nl))
  end.

(** [NodeLink::RemoveRemoteRouterLink]. *)
Definition RemoveRemoteRouterLink (nl : NodeLinkState) (sublink : N) : NodeLinkState :=
  mkNodeLinkState (erase (sublinks_ nl) sublink) (active_ nl)
                  (next_outgoing_sequence_number_generator_ nl).

(** [NodeLink::GetSublink]. *)
Definition GetSublink (nl : NodeLinkState) (sublink : N) : option Sublink :=
  find (sublinks_ nl) sublink.

(** [NodeLink::GetRouter]. *)
Definition GetRouter (nl : NodeLinkState) (sublink : N) : option Router :=
  match find (sublinks_ nl) sublink with
  | None => None
  | Some s => Some (receiver s)
  end.

(** [NodeLink::Deactivate]: the table is moved out before [active_] is
    tested. *)
Definition Deactivate (nl : NodeLinkState) : NodeLinkState * list TransportCall :=
  if negb (active_ nl) then
    (mkNodeLinkState [] (active_ nl) (next_outgoing_sequence_number_generator_ nl), [])
  else
    (mkNodeLinkState [] false (next_outgoing_sequence_number_generator_ nl),
     [TransportDeactivate]).

(** [NodeLink::GenerateOutgoingSequenceNumber]: a 64-bit [fetch_add(1)]. *)
Definition GenerateOutgoingSequenceNumber (nl : NodeLinkState) : N * NodeLinkState :=
  (next_outgoing_sequence_number_generator_ nl,
   mkNodeLinkState (sublinks_ nl) (active_ nl)
                   ((next_outgoing_sequence_number_generator_ nl + 1) mod 2 ^ 64)).

Section Transmit.

(** [Message::CanTransmitOn] on the transport (outside the sources). *)
Variable CanTransmitOn : Message -> bool.

(** [NodeLink::Transmit]; the failed [ABSL_ASSERT] is compiled out. *)
Definition Transmit (nl : NodeLinkState) (message : Message)
  : NodeLinkState * list TransportCall :=
  if negb (CanTransmitOn message) then (nl, [])
  else
    let '(n, nl') := GenerateOutgoingSequenceNumber nl in
    (nl', [TransportTransmit (mkMessage n (params message))]).

(** Messages transmitted one after the other. *)
Fixpoint transmit_all (nl : NodeLinkState) (messages : list Message)
  : NodeLinkState * list TransportCall :=
  match messages with
  | [] => (nl, [])
  | m :: ms =>
      let '(nl1, c1) := Transmit nl m in
      let '(nl2, c2) := transmit_all nl1 ms in
      (nl2, c1 ++ c2)
  end.

End Transmit.

Section OnRouteClosed.

Variable TryLockForClosure : RouterLink -> bool.
Variable MaybeStartSelfBypass : Router -> bool.

(** [NodeLink::OnRouteClosed]: the result, and the receiving Router's new
    state when the sublink is known. *)
Definition OnRouteClosed (nl : NodeLinkState) (sublink sequence_length : N)
  : bool * option Router * list Effect :=
  match GetSublink nl sublink with
  | None => (true, None, [])
  | Some s =>
      let '(ok, r', eff) :=
        AcceptRouteClosureFrom TryLockForClosure MaybeStartSelfBypass (receiver s)
          (link_type (router_link s)) sequence_length in
      (ok, Some r', eff)
  end.

End OnRouteClosed.

End node_link.

(** ** RemoteRouterLink (remote_router_link.cc) *)

Module remote_router_link.

Import node_link.

Section RemoteRouterLink.

Variable CanTransmitOn : Message -> bool.

(** [RemoteRouterLink::AcceptRouteClosure] on the link for sublink
    [link_id link] of [nl]. *)
Definition AcceptRouteClosure (nl : NodeLinkState) (link : RouterLink)
           (sequence_length : N) : NodeLinkState * list TransportCall :=
  Transmit CanTransmitOn nl (mkMessage 0 (RouteClosed (link_id link) sequence_length)).

(** [RemoteRouterLink::AcceptRouteDisconnected]. *)
Definition AcceptRouteDisconnected (nl : NodeLinkState) (link : RouterLink)
  : NodeLinkState * list TransportCall :=
  Transmit CanTransmitOn nl (mkMessage 0 (RouteDisconnected (link_id link))).

End RemoteRouterLink.

(** [RemoteRouterLink::Deactivate]. *)
Definition Deactivate (nl : NodeLinkState) (link : RouterLink) : NodeLinkState :=
  RemoveRemoteRouterLink nl (link_id link).

End remote_router_link.

(** ** NodeLinkMemory (node_link_memory.cc) *)

Module node_link_memory.

Definition kBlockAllocatorPageSize : N := 64 * 1024.
Definition kMinBlockAllocatorCapacity : N := 8.
Definition kMaxBlockAllocatorCapacityPerFragmentSize : N := 256 * 1024.
Definition kMinFragmentSize : N := 64.
Definition kMaxFragmentSizeForBlockAllocation : N := 16 * 1024.

(** [size_t] arithmetic. *)
Definition wrap64 (x : N) : N := x mod 2 ^ 64.

(** [absl::bit_ceil] (outside the sources): the least power of two not
    below [x]. *)
Definition bit_ceil (x : N) : N := if x <=? 1 then 1 else 2 ^ N.size (x - 1).

(** [GetBlockSizeForFragmentSize]. *)
Definition GetBlockSizeForFragmentSize (fragment_size : N) : N :=
  N.max kMinFragmentSize (bit_ceil fragment_size).

(** A callback given to [RequestBlockCapacity]: the one of
    [AllocateFragment], which only logs a failure, or one of another
    caller. *)
Inductive CapacityCallback :=
| LogCapacityFailure
| OtherCallback (id : N).

(** The state of a NodeLinkMemory: the two id generators of the primary
    buffer header and the pending capacity requests
    ([capacity_callbacks_], keyed by block size). *)
Record NodeLinkMemoryState := mkNodeLinkMemoryState {
  next_buffer_id : N;
  next_sublink_id : N;
  capacity_callbacks_ : list (N * list CapacityCallback)
}.

(** Calls made outside the NodeLinkMemory. *)
Inductive MemoryCall :=
| PoolAllocateBlock (block_size : N)
| NodeAllocateSharedMemory (buffer_size block_size : N)
| LinkAddBlockBuffer (id block_size : N)
| PoolAddBlockBuffer (id block_size : N)
| RunCapacityCallback (callback : CapacityCallback) (success : bool).

Fixpoint find_callbacks (m : list (N * list CapacityCallback)) (block_size : N)
  : option (list CapacityCallback) :=
  match m with
  | [] => None
  | (k, cs) :: t => if k =? block_size then Some cs else find_callbacks t block_size
  end.

Definition erase_callbacks (m : list (N * list CapacityCallback)) (block_size : N)
  : list (N * list CapacityCallback) :=
  filter (fun e => negb (fst e =? block_size)) m.

(** [NodeLinkMemory::AllocateNewBufferId]: a 64-bit [fetch_add(1)]. *)
Definition AllocateNewBufferId (mem : NodeLinkMemoryState) : N * NodeLinkMemoryState :=
  (next_buffer_id mem,
   mkNodeLinkMemoryState (wrap64 (next_buffer_id mem + 1)) (next_sublink_id mem)
                         (capacity_callbacks_ mem)).

(** [NodeLinkMemory::AllocateSublinkIds]: a 64-bit [fetch_add(count)]. *)
Definition AllocateSublinkIds (mem : NodeLinkMemoryState) (count : N)
  : N * NodeLinkMemoryState :=
  (next_sublink_id mem,
   mkNodeLinkMemoryState (next_buffer_id mem) (wrap64 (next_sublink_id mem + count))
                         (capacity_callbacks_ mem)).

(** The buffer size computed by [RequestBlockCapacity]. *)
Definition capacity_buffer_size (block_size : N) : N :=
  let min_buffer_size := wrap64 (block_size * kMinBlockAllocatorCapacity) in
  let num_pages :=
    wrap64 (min_buffer_size + kBlockAllocatorPageSize - 1) / kBlockAllocatorPageSize in
  wrap64 (num_pages * kBlockAllocatorPageSize).

(** [NodeLinkMemory::RequestBlockCapacity]: only the first pending request
    for a block size asks the Node for memory. *)
Definition RequestBlockCapacity (mem : NodeLinkMemoryState) (block_size : N)
           (callback : CapacityCallback) : NodeLinkMemoryState * list MemoryCall :=
  match find_callbacks (capacity_callbacks_ mem) block_size with
  | Some cs =>
      (mkNodeLinkMemoryState (next_buffer_id mem) (next_sublink_id mem)
         ((block_size, cs ++ [callback])
            :: erase_callbacks (capacity_callbacks_ mem) block_size), [])
  | None =>
      (mkNodeLinkMemoryState (next_buffer_id mem) (next_sublink_id mem)
         ((block_size, [callback]) :: capacity_callbacks_ mem),
       [NodeAllocateSharedMemory (capacity_buffer_size block_size) block_size])
  end.

(** [NodeLinkMemory::OnCapacityRequestComplete]. *)
Definition OnCapacityRequestComplete (mem : NodeLinkMemoryState) (block_size : N)
           (success : bool) : NodeLinkMemoryState * list MemoryCall :=
  match find_callbacks (capacity_callbacks_ mem) block_size with
  | None => (mem, [])
  | Some cs =>
      (mkNodeLinkMemoryState (next_buffer_id mem) (next_sublink_id mem)
         (erase_callbacks (capacity_callbacks_ mem) block_size),
       map (fun c => RunCapacityCallback c success) cs)
  end.

(** The reply to [RequestBlockCapacity]'s [AllocateSharedMemory]: a new
    buffer id, the buffer shared with the remote node and then registered
    locally, then the callbacks. *)
Definition CapacityAllocated (mem : NodeLinkMemoryState) (block_size : N)
           (memory_is_valid : bool) : NodeLinkMemoryState * list MemoryCall :=
  if negb memory_is_valid then OnCapacityRequestComplete mem block_size false
  else
    let '(id, mem1) := AllocateNewBufferId mem in
    let '(mem2, calls) := OnCapacityRequestComplete mem1 block_size true in
    (mem2, [LinkAddBlockBuffer id block_size; PoolAddBlockBuffer id block_size] ++ calls).

Section AllocateFragment.

(** [BufferPool::AllocateBlock] (outside the sources): [None] for a null
    fragment, else the allocated fragment's descriptor. *)
Variable AllocateBlock : N -> option N.
(** [BufferPool::GetTotalBlockCapacity]. *)
Variable GetTotalBlockCapacity : N -> N.

(** [NodeLinkMemory::CanExpandBlockCapacity]. *)
Definition CanExpandBlockCapacity (block_size : N) : bool :=
  GetTotalBlockCapacity block_size <? kMaxBlockAllocatorCapacityPerFragmentSize.

(** [NodeLinkMemory::AllocateFragment]. *)
Definition AllocateFragment (mem : NodeLinkMemoryState) (size : N)
  : option N * NodeLinkMemoryState * list MemoryCall :=
  if (size =? 0) || (kMaxFragmentSizeForBlockAllocation <? size) then (None, mem, [])
  else
    let block_size := GetBlockSizeForFragmentSize size in
    match AllocateBlock block_size with
    | Some f => (Some f, mem, [PoolAllocateBlock block_size])
    | None =>
        if CanExpandBlockCapacity block_size then
          let '(mem', calls) := RequestBlockCapacity mem block_size LogCapacityFailure in
          (None, mem', PoolAllocateBlock block_size :: calls)
        else (None, mem, [PoolAllocateBlock block_size])
    end.

End AllocateFragment.

End node_link_memory.

(** ** LocalRouterLink (local_router_link.cc) *)

Module local_router_link.

(** The Routers of a process, by [router_id]; every id held by a link names
    one of them. *)
Definition RouterStore := list Router.

Fixpoint lookup (rs : RouterStore) (id : N) : option Router :=
  match rs with
  | [] => None
  | r :: t => if router_id r =? id then Some r else lookup t id
  end.

Fixpoint store (rs : RouterStore) (r : Router) : RouterStore :=
  match rs with
  | [] => []
  | r0 :: t => if router_id r0 =? router_id r then r :: t else r0 :: store t r
  end.

Definition opposite (side : LinkSide) : LinkSide :=
  match side with kA => kB | kB => kA end.

(** [LocalRouterLink::SharedState], shared by the two links of a pair: the
    link type, whether the RouterLinkState starts stable, and the Router on
    each side (reset by [Deactivate]). *)
Record SharedState := mkSharedState {
  type_ : LinkType;
  stable : bool;
  router_a_ : option N;
  router_b_ : option N
}.

Definition GetRouter (st : SharedState) (side : LinkSide) : option N :=
  match side with kA => router_a_ st | kB => router_b_ st end.

(** [SharedState::Deactivate]. *)
Definition DeactivateSide (st : SharedState) (side : LinkSide) : SharedState :=
  match side with
  | kA => mkSharedState (type_ st) (stable st) None (router_b_ st)
  | kB => mkSharedState (type_ st) (stable st) (router_a_ st) None
  end.

Inductive InitialState := kUnstable | kStable.

(** [LocalRouterLink::CreatePair]: the shared state of the two links; the
    link on side [kA] is held by [fst routers]. *)
Definition CreatePair (type : LinkType) (routers : N * N) (initial_state : InitialState)
  : SharedState :=
  mkSharedState type (match initial_state with kStable => true | kUnstable => false end)
                (Some (fst routers)) (Some (snd routers)).

(** [LocalRouterLink::GetLocalPeer] of the link on [side]. *)
Definition GetLocalPeer (st : SharedState) (side : LinkSide) : option N :=
  GetRouter st (opposite side).

(** [LocalRouterLink::Deactivate] of the link on [side]. *)
Definition Deactivate (st : SharedState) (side : LinkSide) : SharedState :=
  DeactivateSide st side.

(** The [RouterLink] a Router holds for the link on [side] of a pair, with
    identity [id]: its type and local peer. *)
Definition as_router_link (st : SharedState) (side : LinkSide) (id : N) : RouterLink :=
  mkRouterLink id (type_ st) (GetLocalPeer st side).

Section Delivery.

Variable TryLockForClosure : RouterLink -> bool.
Variable MaybeStartSelfBypass : Router -> bool.

(** Runs [f] on the Router on the other side of the link on [side], if it
    is still there. *)
Definition with_receiver (st : SharedState) (side : LinkSide) (rs : RouterStore)
           (f : Router -> bool * Router * list Effect) : RouterStore * list Effect :=
  match GetRouter st (opposite side) with
  | None => (rs, [])
  | Some id =>
      match lookup rs id with
      | None => (rs, [])
      | Some receiver =>
          let '(_, receiver', eff) := f receiver in (store rs receiver', eff)
      end
  end.

(** [LocalRouterLink::AcceptParcel]. *)
Definition AcceptParcel (st : SharedState) (side : LinkSide) (rs : RouterStore)
           (parcel : Parcel) : RouterStore * list Effect :=
  with_receiver st side rs
    (fun r => AcceptInboundParcel TryLockForClosure MaybeStartSelfBypass r parcel).

(** [LocalRouterLink::AcceptRouteClosure]. *)
Definition AcceptRouteClosure (st : SharedState) (side : LinkSide) (rs : RouterStore)
           (sequence_length : N) : RouterStore * list Effect :=
  with_receiver st side rs
    (fun r => AcceptRouteClosureFrom TryLockForClosure MaybeStartSelfBypass r
                (type_ st) sequence_length).

(** [LocalRouterLink::AcceptRouteDisconnected]. *)
Definition AcceptRouteDisconnected (st : SharedState) (side : LinkSide)
           (rs : RouterStore) : RouterStore * list Effect :=
  with_receiver st side rs
    (fun r => AcceptRouteDisconnectedFrom TryLockForClosure MaybeStartSelfBypass r
                (type_ st)).

End Delivery.

End local_router_link.

(** ** Portal (portal.cc) *)

Module portal.

(** [pending_parcels_]: the parcels of two-phase puts, keyed by the address
    of their data; a pending parcel is its data capacity
    ([data_view().size()]). *)
Inductive PendingParcels :=
| NoPendingParcels
| FirstPendingParcel (key size : N)
| PendingParcelMap (parcels : list (N * N)).

Fixpoint find_pending (m : list (N * N)) (key : N) : option N :=
  match m with
  | [] => None
  | (k, s) :: t => if k =? key then Some s else find_pending t key
  end.

Definition erase_pending (m : list (N * N)) (key : N) : list (N * N) :=
  filter (fun e => negb (fst e =? key)) m.

(** [parcels[key] = size] on the map. *)
Definition set_pending (m : list (N * N)) (key size : N) : list (N * N) :=
  (key, size) :: erase_pending m key.

(** A Portal: its identity (its address), its Router, whether a two-phase
    get is in progress, and its pending two-phase puts. *)
Record Portal := mkPortal {
  portal_id : N;
  router : Router;
  in_two_phase_get_ : bool;
  pending_parcels_ : PendingParcels
}.

Definition set_router (p : Portal) (r : Router) : Portal :=
  mkPortal (portal_id p) r (in_two_phase_get_ p) (pending_parcels_ p).
Definition set_in_two_phase_get (p : Portal) (b : bool) : Portal :=
  mkPortal (portal_id p) (router p) b (pending_parcels_ p).
Definition set_pending_parcels (p : Portal) (pp : PendingParcels) : Portal :=
  mkPortal (portal_id p) (router p) (in_two_phase_get_ p) pp.

(** The API objects a handle may name: a Portal, or another object with its
    own [CanSendFrom]. *)
Inductive APIObject :=
| PortalObject (p : Portal)
| OtherObject (can_send_from : Portal -> bool).

(** Results of portal.cc, which adds [IPCZ_RESULT_ALREADY_EXISTS] to those
    of router.cc. *)
Inductive PortalResult :=
| RouterResult (r : IpczResult)
| IPCZ_RESULT_ALREADY_EXISTS.

Definition is_ok (r : IpczResult) : bool :=
  match r with IPCZ_RESULT_OK => true | _ => false end.

(** [Portal::CanSendFrom]. *)
Definition CanSendFrom (this sender : Portal) : bool :=
  negb (portal_id sender =? portal_id this)
  && negb (HasLocalPeer (router sender) (router this)).

Section PortalOps.

Variable TryLockForClosure : RouterLink -> bool.
Variable MaybeStartSelfBypass : Router -> bool.
Variable UpdateInboundQueueState : RouterLink -> N -> N -> bool.
Variable GetParcelCapacityInBytes : RouterLink -> IpczPutLimits -> N.
(** [APIObject::FromHandle]: [None] for an invalid handle. *)
Variable FromHandle : N -> option APIObject.
(** The data buffer [Router::AllocateOutboundParcel] gives a parcel (by
    [RouterLink::AllocateParcelData] on the outward link, or
    [Parcel::AllocateData] without one), outside the sources: its address
    and its size. *)
Variable AllocateParcelData : option RouterLink -> N -> bool -> N * N.

(** The anonymous-namespace [ValidateAndAcquireObjectsForTransitFrom]. *)
Definition ValidateAndAcquireObjectsForTransitFrom (sender : Portal)
           (handles : list N) : bool :=
  forallb (fun h => match FromHandle h with
                    | None => false
                    | Some (PortalObject q) => CanSendFrom q sender
                    | Some (OtherObject can_send_from) => can_send_from sender
                    end) handles.

(** [Portal::Close]. *)
Definition Close (p : Portal) : IpczResult * Portal * list Effect :=
  let '(r', eff) := CloseRoute TryLockForClosure MaybeStartSelfBypass (router p) in
  (IPCZ_RESULT_OK, set_router p r', eff).

(** [Portal::Put].  The release of the sent handles is not modelled. *)
Definition Put (p : Portal) (data : list byte) (handles : list N)
           (limits : option IpczPutLimits) : IpczResult * Portal * list Effect :=
  if negb (ValidateAndAcquireObjectsForTransitFrom p handles) then
    (IPCZ_RESULT_INVALID_ARGUMENT, p, [])
  else if peer_closed (router p) then (IPCZ_RESULT_NOT_FOUND, p, [])
  else if match limits with
          | Some l => GetOutboundCapacityInBytes GetParcelCapacityInBytes (router p) l
                      <? N.of_nat (length data)
          | None => false
          end
  then (IPCZ_RESULT_RESOURCE_EXHAUSTED, p, [])
  else
    let parcel := mkParcel 0 data (N.of_nat (length handles)) in
    let '(result, _, r', eff) := SendOutboundParcel TryLockForClosure MaybeStartSelfBypass (router p) parcel in
    (result, set_router p r', eff).

(** [Portal::BeginPut]: the result, the Portal, and the values left in
    [num_data_bytes] and [data] ([None] when not written). *)
Definition BeginPut (p : Portal) (allow_partial : bool) (limits : option IpczPutLimits)
           (num_data_bytes : N) : IpczResult * Portal * N * option N :=
  let '(num_data_bytes1, exhausted) :=
    match limits with
    | Some l =>
        let max_num_data_bytes :=
          GetOutboundCapacityInBytes GetParcelCapacityInBytes (router p) l in
        if max_num_data_bytes <? num_data_bytes then
          (max_num_data_bytes, negb allow_partial || (max_num_data_bytes =? 0))
        else (num_data_bytes, false)
    | None => (num_data_bytes, false)
    end in
  if exhausted then (IPCZ_RESULT_RESOURCE_EXHAUSTED, p, num_data_bytes1, None)
  else if peer_closed (router p) then (IPCZ_RESULT_NOT_FOUND, p, num_data_bytes1, None)
  else
    let num_bytes_to_request := if num_data_bytes1 =? 0 then 1 else num_data_bytes1 in
    let '(data, size) :=
      AllocateParcelData (primary_link (outward_edge (router p))) num_bytes_to_request
                         allow_partial in
    let pending :=
      match pending_parcels_ p with
      | NoPendingParcels => FirstPendingParcel data size
      | FirstPendingParcel first_key first_size =>
          PendingParcelMap (set_pending [(first_key, first_size)] data size)
      | PendingParcelMap parcels => PendingParcelMap (set_pending parcels data size)
      end in
    (IPCZ_RESULT_OK, set_pending_parcels p pending, size, Some data).

(** [Portal::CommitPut]; [buffer] is what the application wrote in the
    pending parcel's data. *)
Definition CommitPut (p : Portal) (data : N) (num_data_bytes_produced : N)
           (buffer : list byte) (handles : list N) : IpczResult * Portal * list Effect :=
  if negb (ValidateAndAcquireObjectsForTransitFrom p handles) then
    (IPCZ_RESULT_INVALID_ARGUMENT, p, [])
  else
    let taken :=
      match pending_parcels_ p with
      | NoPendingParcels => None
      | FirstPendingParcel first_key first_size =>
          if negb (first_key =? data) || (first_size <? num_data_bytes_produced)
          then None else Some NoPendingParcels
      | PendingParcelMap parcels =>
          match find_pending parcels data with
          | None => None
          | Some size =>
              if size <? num_data_bytes_produced then None
              else Some (PendingParcelMap (erase_pending parcels data))
          end
      end in
    match taken with
    | None => (IPCZ_RESULT_INVALID_ARGUMENT, p, [])
    | Some pending =>
        let parcel := mkParcel 0 (firstn (N.to_nat num_data_bytes_produced) buffer)
                               (N.of_nat (length handles)) in
        let '(result, _, r', eff) := SendOutboundParcel TryLockForClosure MaybeStartSelfBypass (router p) parcel in
        (result, set_router (set_pending_parcels p pending) r', eff)
    end.

(** [Portal::AbortPut]. *)
Definition AbortPut (p : Portal) (data : N) : IpczResult * Portal :=
  let taken :=
    match pending_parcels_ p with
    | NoPendingParcels => None
    | FirstPendingParcel first_key _ =>
        if first_key =? data then Some NoPendingParcels else None
    | PendingParcelMap parcels =>
        match find_pending parcels data with
        | None => None
        | Some _ => Some (PendingParcelMap (erase_pending parcels data))
        end
    end in
  match taken with
  | None => (IPCZ_RESULT_INVALID_ARGUMENT, p)
  | Some pending => (IPCZ_RESULT_OK, set_pending_parcels p pending)
  end.

(** [Portal::Get]. *)
Definition Get (p : Portal) (flags : Z) (num_data_bytes num_handles : option N)
  : GetOutcome * Portal :=
  let o := GetNextInboundParcel UpdateInboundQueueState (router p) flags num_data_bytes
                                num_handles in
  (o, set_router p (get_router o)).

(** [Portal::BeginGet]: the result, the Portal and the outputs of
    [BeginGetNextIncomingParcel] (the pointers as given when it is not
    called). *)
Definition BeginGet (p : Portal) (data : option (list byte))
           (num_data_bytes num_handles : option N)
  : PortalResult * Portal * (option (list byte) * option N * option N) :=
  if in_two_phase_get_ p then
    (IPCZ_RESULT_ALREADY_EXISTS, p, (data, num_data_bytes, num_handles))
  else if dead (router p) then
    (RouterResult IPCZ_RESULT_NOT_FOUND, p, (data, num_data_bytes, num_handles))
  else
    let o := BeginGetNextIncomingParcel (router p) data num_data_bytes num_handles in
    (RouterResult (begin_result o),
     if is_ok (begin_result o) then set_in_two_phase_get p true else p,
     (begin_data o, begin_num_bytes o, begin_num_handles o)).

(** [Portal::CommitGet]; [num_handles] is the size of [handles]. *)
Definition CommitGet (p : Portal) (num_data_bytes_consumed num_handles : N)
  : IpczResult * Portal * list Effect :=
  if negb (in_two_phase_get_ p) then (IPCZ_RESULT_FAILED_PRECONDITION, p, [])
  else
    let '(result, r', eff) :=
      CommitGetNextIncomingParcel UpdateInboundQueueState (router p)
                                  num_data_bytes_consumed num_handles in
    (result,
     set_router (if is_ok result then set_in_two_phase_get p false else p) r', eff).

(** [Portal::AbortGet]. *)
Definition AbortGet (p : Portal) : IpczResult * Portal :=
  if negb (in_two_phase_get_ p) then (IPCZ_RESULT_FAILED_PRECONDITION, p)
  else (IPCZ_RESULT_OK, set_in_two_phase_get p false).

(** [Portal::CreatePair]: Routers [a] and [b], joined by the stable central
    LocalRouterLink pair [link_a] (held by [a]) and [link_b]; the Portals
    [pa] and [pb].  The shared state of the links, the Portals and the
    calls made. *)
Definition CreatePair (pa pb a b link_a link_b : N)
  : local_router_link.SharedState * Portal * Portal * list Effect :=
  let links := local_router_link.CreatePair kCentral (a, b) local_router_link.kStable in
  let '(ra, eff_a) :=
    SetOutwardLink TryLockForClosure MaybeStartSelfBypass (new_router a) (local_router_link.as_router_link links kA link_a) in
  let '(rb, eff_b) :=
    SetOutwardLink TryLockForClosure MaybeStartSelfBypass (new_router b) (local_router_link.as_router_link links kB link_b) in
  (links, mkPortal pa ra false NoPendingParcels, mkPortal pb rb false NoPendingParcels,
   eff_a ++ eff_b).

End PortalOps.

End portal.

(** * Inputs, relations and small routers used by the properties *)

Definition no_lock : RouterLink -> bool := fun _ => false.
Definition no_self_bypass : Router -> bool := fun _ => false.

Definition hello : Parcel := mkParcel 0 ["h"%byte; "i"%byte] 0.

Definition peripheral_link : RouterLink := mkRouterLink 7 kPeripheralOutward None.

(** A terminal Router at the far end of an extended route. *)
Definition extended_router : Router :=
  set_edges (new_router 0) (SetPrimaryLink empty_edge peripheral_link) None None.

Definition closed_router : Router :=
  snd (fst (AcceptRouteClosureFrom no_lock no_self_bypass (new_router 2) kCentral 3)).

Definition parcel_queue_with (p : Parcel) : ParcelQueue :=
  mkParcelQueue 0 [Some p] None.

Definition router_with_parcel : Router :=
  set_inbound (new_router 3) (parcel_queue_with hello).

Definition central_link : RouterLink := mkRouterLink 9 kCentral (Some 5).

(** A terminal Router that closed its side with one parcel still queued. *)
Definition closing_router : Router :=
  set_outbound (set_edges (new_router 4) (SetPrimaryLink empty_edge central_link) None None)
               (mkParcelQueue 0 [Some hello] (Some 1)).

Definition used_router : Router :=
  snd (fst (SendOutboundParcel no_lock no_self_bypass (new_router 10) hello)).

(** The Router [Deserialize] builds before its link is registered: fresh
    queues reset to the descriptor's sequence numbers. *)
Definition deserialized_base (descriptor : RouterDescriptor) (id : N) : Router :=
  set_inbound
    (set_outbound (new_router id)
       (ResetInitialSequenceNumber empty_queue (next_outgoing_sequence_number descriptor)))
    (ResetInitialSequenceNumber empty_queue (next_incoming_sequence_number descriptor)).

Definition taken_descriptor : RouterDescriptor := mkRouterDescriptor 4 0 0 false 0.
Definition taken_node_link : NodeLink := mkNodeLink [4].




(** The status flags of [r'] are those of [r] with more bits or'ed in. *)
Definition flags_grow (r r' : Router) : Prop :=
  exists x, flags (status r') = Z.lor (flags (status r)) x.

(** One operation applied to a Router, with the oracles it consults.  The
    route-bypass operations of router.cc write only the route edges
    ([bridge_], the links and decay lengths of [inward_edge_] and
    [outward_edge_]); [step_rewire] stands for all of them. *)
Inductive router_step (r : Router) : Router -> Prop :=
| step_send tl sb p :
    router_step r (snd (fst (SendOutboundParcel tl sb r p)))
| step_close tl sb :
    router_step r (fst (CloseRoute tl sb r))
| step_accept_inbound tl sb p :
    router_step r (snd (fst (AcceptInboundParcel tl sb r p)))
| step_accept_outbound tl sb p :
    router_step r (snd (fst (AcceptOutboundParcel tl sb r p)))
| step_closure_from tl sb lt n :
    router_step r (snd (fst (AcceptRouteClosureFrom tl sb r lt n)))
| step_disconnected_from tl sb lt :
    router_step r (snd (fst (AcceptRouteDisconnectedFrom tl sb r lt)))
| step_notify gpqs tnrs :
    router_step r (fst (NotifyPeerConsumedData gpqs tnrs r))
| step_get uiqs f nb nh :
    router_step r (get_router (GetNextInboundParcel uiqs r f nb nh))
| step_commit uiqs nb nh :
    router_step r (snd (fst (CommitGetNextIncomingParcel uiqs r nb nh)))
| step_trap gpqs tnrs need res :
    router_step r (snd (fst (Trap gpqs tnrs r need res)))
| step_set_outward tl sb l :
    router_step r (fst (SetOutwardLink tl sb r l))
| step_merge tl sb other a b :
    router_step r (snd (fst (fst (MergeRoute tl sb r other a b))))
| step_merged tl sb this a b :
    router_step r (snd (fst (MergeRoute tl sb this r a b)))
| step_serialize nl s :
    router_step r (snd (fst (fst (SerializeNewRouter r nl s))))
| step_flush tl sb b :
    router_step r (fst (Flush tl sb b r))
| step_rewire o i b :
    router_step r (set_edges r o i b).

Definition closed_then_sent : Router :=
  snd (fst (SendOutboundParcel no_lock no_self_bypass closed_router hello)).

(** ** Inputs of the properties of the portal, NodeLink and NodeLinkMemory code *)

(** A link capacity that is the limit itself. *)
Definition no_link_capacity : RouterLink -> IpczPutLimits -> N := fun _ l => max_queued_bytes l.

(** A handle table with no valid handle. *)
Definition no_objects : N -> option portal.APIObject := fun _ => None.

(** A portal on a fresh terminal Router with no link yet. *)
Definition unlinked_portal : portal.Portal :=
  portal.mkPortal 1 (new_router 11) false portal.NoPendingParcels.

(** Put limits of four parcels and two bytes. *)
Definition two_byte_limits : IpczPutLimits := mkIpczPutLimits 4 2.

(** An [UpdateInboundQueueState] that never asks for a flush. *)
Definition no_inbound_update : RouterLink -> N -> N -> bool := fun _ _ _ => false.

(** A portal whose Router holds [hello] in its inbound queue. *)
Definition parcel_portal : portal.Portal :=
  portal.mkPortal 2 router_with_parcel false portal.NoPendingParcels.

(** A fresh Router whose outward edge has [l] as primary link. *)
Definition linked_router (id : N) (l : RouterLink) : Router :=
  set_edges (new_router id) (SetPrimaryLink empty_edge l) None None.

(** [RequestBlockCapacity] called for each callback in turn, with the calls made. *)
Fixpoint request_all (mem : node_link_memory.NodeLinkMemoryState) (block_size : N)
         (callbacks : list node_link_memory.CapacityCallback)
  : node_link_memory.NodeLinkMemoryState * list node_link_memory.MemoryCall :=
  match callbacks with
  | [] => (mem, [])
  | c :: cs =>
      let '(mem1, calls1) := node_link_memory.RequestBlockCapacity mem block_size c in
      let '(mem2, calls2) := request_all mem1 block_size cs in
      (mem2, calls1 ++ calls2)
  end.

(** The shared state of the links between Routers 10 and 11. *)
Definition pair_links : local_router_link.SharedState :=
  local_router_link.CreatePair kCentral (10, 11) local_router_link.kStable.

(** The first portal of the pair [CreatePair _ _ 1 2 10 11 20 21]. *)
Definition pair_a : portal.Portal :=
  portal.mkPortal 1 (linked_router 10 (local_router_link.as_router_link pair_links kA 20))
                  false portal.NoPendingParcels.

(** The second portal of that pair. *)
Definition pair_b : portal.Portal :=
  portal.mkPortal 2 (linked_router 11 (local_router_link.as_router_link pair_links kB 21))
                  false portal.NoPendingParcels.

(** A handle table where handle 1 names [pair_a]. *)
Definition pair_a_handle : N -> option portal.APIObject :=
  fun h => if h =? 1 then Some (portal.PortalObject pair_a) else None.

(** A [TryLockForClosure] that always gets the lock. *)
Definition always_lock : RouterLink -> bool := fun _ => true.

(** A transport that accepts every message. *)
Definition transmit_any : node_link.Message -> bool := fun _ => true.

(** A NodeLink whose sequence number generator is at the top of 64 bits. *)
Definition wrapping_node_link : node_link.NodeLinkState :=
  node_link.mkNodeLinkState [] true (2 ^ 64 - 1).

(** Two messages to transmit. *)
Definition two_messages : list node_link.Message :=
  [node_link.mkMessage 0 (node_link.RouteClosed 1 2); node_link.mkMessage 0 (node_link.FlushRouter 1)].

(** A NodeLinkMemory with no pending capacity request. *)
Definition fresh_memory : node_link_memory.NodeLinkMemoryState :=
  node_link_memory.mkNodeLinkMemoryState 1 5 [].

(** A parcel data allocator placing the data at address 100. *)
Definition data_at_100 : option RouterLink -> N -> bool -> N * N := fun _ n _ => (100, n).

(** * Properties *)

(** ** Evaluation on small inputs *)

Example send_on_fresh_router_queues_parcel :
  let '(res, p, r', _) := SendOutboundParcel no_lock no_self_bypass (new_router 0) hello in
  res = IPCZ_RESULT_OK /\ parcel_sequence_number p = 0
  /\ GetCurrentSequenceLength (outbound_parcels r') = 1.
Proof. vm_compute. auto. Qed.

(** ** Queue lemmas *)

Ltac split_matches :=
  repeat match goal with
  | |- context [match ?x with _ => _ end] => destruct x
  end.

Lemma collect_loop_final : forall fuel q e ps,
  final_sequence_length (fst (collect_loop fuel q e ps)) = final_sequence_length q.
Proof.
  induction fuel as [|fuel IH]; intros q e ps; simpl; [reflexivity|].
  unfold HasNextElement, Pop. destruct (entries q) as [|[p|] t]; try reflexivity.
  split_matches; cbn [fst]; try reflexivity; rewrite IH; reflexivity.
Qed.

Lemma collect_final : forall q e ps,
  final_sequence_length (fst (CollectParcelsToFlush q e ps)) = final_sequence_length q.
Proof. intros. apply collect_loop_final. Qed.

Ltac destruct_pairs :=
  repeat match goal with
  | |- context [match ?e with pair _ _ => _ end] =>
      let E := fresh "E" in destruct e eqn:E
  end.

(** Flush touches neither the status nor the final lengths. *)
Lemma Flush_status : forall tl sb b r, status (fst (Flush tl sb b r)) = status r.
Proof. intros. unfold Flush. destruct_pairs. reflexivity. Qed.

Lemma flush_inward_final : forall r o ps,
  final_sequence_length (fst (fst (fst (flush_inward r o ps))))
  = final_sequence_length (inbound_parcels r).
Proof.
  intros. unfold flush_inward.
  destruct (inward_edge r) as [ie|].
  - pose proof (collect_final (inbound_parcels r) ie ps) as C.
    destruct (CollectParcelsToFlush _ _ _) as [q ps'].
    destruct (MaybeFinishDecay _ _ _); exact C.
  - destruct (flush_bridge_link r), (bridge r) as [b|]; try reflexivity.
    pose proof (collect_final (inbound_parcels r) b ps) as C.
    destruct (CollectParcelsToFlush _ _ _) as [q ps']. exact C.
Qed.

Lemma Flush_inbound_final : forall tl sb b r,
  final_sequence_length (inbound_parcels (fst (Flush tl sb b r)))
  = final_sequence_length (inbound_parcels r).
Proof.
  intros. unfold Flush. destruct_pairs. simpl.
  pose proof (flush_inward_final r p p0) as F. rewrite E1 in F. exact F.
Qed.

Lemma SendOutboundParcel_not_found_iff : forall tl sb r parcel,
  fst (fst (fst (SendOutboundParcel tl sb r parcel))) = IPCZ_RESULT_NOT_FOUND
  <-> final_sequence_length (inbound_parcels r) <> None.
Proof.
  intros. unfold SendOutboundParcel.
  destruct (final_sequence_length (inbound_parcels r)) eqn:F; simpl.
  - split; [intros _; discriminate | reflexivity].
  - destruct_pairs; split_matches; destruct_pairs; simpl;
      split; intro H; try discriminate; try congruence.
Qed.

Lemma CloseRoute_inbound_final : forall tl sb r,
  final_sequence_length (inbound_parcels (fst (CloseRoute tl sb r)))
  = final_sequence_length (inbound_parcels r).
Proof.
  intros. unfold CloseRoute.
  pose proof (Flush_inbound_final tl sb kDefault
                (set_outbound r (match SetFinalSequenceLength (outbound_parcels r)
                     (GetCurrentSequenceLength (outbound_parcels r)) with
                   | Some q' => q' | None => outbound_parcels r end))) as F.
  destruct (Flush _ _ _ _) as [r' eff]. exact F.
Qed.

(** ** C3 *)

(** C3: [send_outbound_parcel] fails with NotFound exactly when the inbound
    sequence has a final length; otherwise it returns OK and numbers the
    parcel with the current length of the outbound sequence. *)
Theorem send_outbound_parcel_spec : forall tl sb r parcel,
  let '(res, sent, _, _) := SendOutboundParcel tl sb r parcel in
  (res = IPCZ_RESULT_NOT_FOUND <-> final_sequence_length (inbound_parcels r) <> None)
  /\ (final_sequence_length (inbound_parcels r) = None ->
      res = IPCZ_RESULT_OK
      /\ parcel_sequence_number sent = GetCurrentSequenceLength (outbound_parcels r)).
Proof.
  intros tl sb r parcel.
  pose proof (SendOutboundParcel_not_found_iff tl sb r parcel) as NF.
  destruct (SendOutboundParcel tl sb r parcel) as [[[res sent] r'] eff] eqn:S.
  simpl in NF. split; [exact NF|]. intros F.
  unfold SendOutboundParcel in S. rewrite F in S. simpl in S.
  destruct (primary_link (outward_edge r));
    [destruct (MaybeSkipSequenceNumber _ _)|];
    try destruct (Flush _ _ _ _); inversion S; subst; split; reflexivity.
Qed.

Lemma send_outbound_parcel_spec_witness :
  final_sequence_length (inbound_parcels (new_router 1)) = None
  /\ fst (fst (fst (SendOutboundParcel no_lock no_self_bypass (new_router 1) hello)))
     = IPCZ_RESULT_OK.
Proof.
  pose proof (send_outbound_parcel_spec no_lock no_self_bypass (new_router 1) hello) as H.
  destruct (SendOutboundParcel no_lock no_self_bypass (new_router 1) hello)
    as [[[res sent] r'] eff].
  split; [reflexivity|]. apply H. reflexivity.
Defined.

(** ** C1 *)

Lemma Flush_outbound_final : forall tl sb b r,
  final_sequence_length (outbound_parcels (fst (Flush tl sb b r)))
  = final_sequence_length (outbound_parcels r).
Proof.
  intros. unfold Flush.
  pose proof (collect_final (outbound_parcels r) (outward_edge r) []) as C.
  destruct_pairs. simpl in *. exact C.
Qed.

Lemma CloseRoute_outbound_final : forall tl sb r,
  let q := outbound_parcels r in
  final_sequence_length (outbound_parcels (fst (CloseRoute tl sb r)))
  = match final_sequence_length q with
    | Some f => Some f
    | None =>
        if GetCurrentSequenceLength q <? current_sequence_number q + N.of_nat (occupied_end (entries q))
        then None else Some (GetCurrentSequenceLength q)
    end.
Proof.
  intros tl sb r q. unfold CloseRoute.
  match goal with |- context [Flush tl sb kDefault ?x] =>
    pose proof (Flush_outbound_final tl sb kDefault x) as F;
    destruct (Flush tl sb kDefault x) as [r' eff]
  end.
  simpl in *. rewrite F. unfold q, SetFinalSequenceLength.
  destruct (final_sequence_length (outbound_parcels r)) as [f|] eqn:Ef; simpl; [exact Ef|].
  destruct (_ <? _); simpl; [exact Ef|reflexivity].
Qed.

Lemma SendOutboundParcel_ok : forall tl sb r parcel,
  final_sequence_length (inbound_parcels r) = None ->
  fst (fst (fst (SendOutboundParcel tl sb r parcel))) = IPCZ_RESULT_OK.
Proof.
  intros tl sb r parcel H. unfold SendOutboundParcel. rewrite H. simpl.
  destruct_pairs; split_matches; destruct_pairs; reflexivity.
Qed.

(** C1 (as stated, false): after [close_route] on a terminal Router whose
    peer is still there, [send_outbound_parcel] returns OK, and even
    transmits the parcel numbered 0 past the final outbound length 0. *)
Lemma close_route_then_send_ok :
  let r1 := fst (CloseRoute no_lock no_self_bypass extended_router) in
  final_sequence_length (outbound_parcels r1) = Some 0
  /\ inward_edge r1 = None
  /\ SendOutboundParcel no_lock no_self_bypass r1 hello
     = (IPCZ_RESULT_OK, set_sequence_number hello 0,
        set_outbound r1 (mkParcelQueue 1 [] (Some 0)),
        [LinkAcceptParcel peripheral_link (set_sequence_number hello 0)]).
Proof. vm_compute. auto. Qed.

(** C1 (amended): [close_route] sets the outbound final length to the
    current outbound sequence length, unless a final length was already set
    (it is kept) or a parcel is queued past a gap (it stays unset); it
    leaves the inbound final length as it was.  Afterwards
    [send_outbound_parcel] returns NotFound exactly when the inbound sequence
    was already finalized before [close_route], and OK otherwise. *)
Theorem close_route_then_send : forall tl sb r,
  let q := outbound_parcels r in
  let r1 := fst (CloseRoute tl sb r) in
  final_sequence_length (outbound_parcels r1)
  = match final_sequence_length q with
    | Some f => Some f
    | None =>
        if GetCurrentSequenceLength q <? current_sequence_number q + N.of_nat (occupied_end (entries q))
        then None else Some (GetCurrentSequenceLength q)
    end
  /\ final_sequence_length (inbound_parcels r1) = final_sequence_length (inbound_parcels r)
  /\ forall tl' sb' parcel,
       let res := fst (fst (fst (SendOutboundParcel tl' sb' r1 parcel))) in
       (res = IPCZ_RESULT_NOT_FOUND <-> final_sequence_length (inbound_parcels r) <> None)
       /\ (final_sequence_length (inbound_parcels r) = None -> res = IPCZ_RESULT_OK).
Proof.
  intros tl sb r q r1. split; [|split].
  - apply CloseRoute_outbound_final.
  - apply CloseRoute_inbound_final.
  - intros tl' sb' parcel res. unfold res, r1.
    rewrite SendOutboundParcel_not_found_iff, CloseRoute_inbound_final.
    split; [reflexivity|]. intros H. apply SendOutboundParcel_ok.
    rewrite CloseRoute_inbound_final. exact H.
Qed.

(** ** C7 *)

(** C7: once a final inbound length [F] is recorded, a repeated closure from
    an outward link with length [L] fails iff [L < F], succeeds iff
    [F <= L], and leaves [F] recorded. *)
Theorem repeated_outward_route_closure : forall tl sb r link_type L F,
  is_outward link_type = true ->
  final_sequence_length (inbound_parcels r) = Some F ->
  let '(ok, r', _) := AcceptRouteClosureFrom tl sb r link_type L in
  (ok = false <-> L < F) /\ (ok = true <-> F <= L)
  /\ final_sequence_length (inbound_parcels r') = Some F.
Proof.
  intros tl sb r link_type L F Ho HF.
  unfold AcceptRouteClosureFrom. rewrite Ho.
  unfold SetFinalSequenceLength. rewrite HF.
  split; [|split]; [| |exact HF];
    destruct (N.leb_spec F L); split; intro Hx; try lia; try discriminate; reflexivity.
Qed.

Lemma repeated_outward_route_closure_witness :
  fst (fst (AcceptRouteClosureFrom no_lock no_self_bypass closed_router kCentral 2)) = false
  /\ fst (fst (AcceptRouteClosureFrom no_lock no_self_bypass closed_router kCentral 5)) = true.
Proof.
  pose proof (repeated_outward_route_closure no_lock no_self_bypass closed_router
                kCentral 2 3 eq_refl eq_refl) as H1.
  pose proof (repeated_outward_route_closure no_lock no_self_bypass closed_router
                kCentral 5 3 eq_refl eq_refl) as H2.
  destruct (AcceptRouteClosureFrom no_lock no_self_bypass closed_router kCentral 2)
    as [[ok1 r1] e1].
  destruct (AcceptRouteClosureFrom no_lock no_self_bypass closed_router kCentral 5)
    as [[ok2 r2] e2].
  split; simpl.
  - apply (proj1 H1). lia.
  - apply (proj1 (proj2 H2)). lia.
Defined.

(** ** Status flag lemmas *)

Lemma land_lor_eq0 : forall a b m,
  (Z.land (Z.lor a b) m =? 0)%Z = ((Z.land a m =? 0) && (Z.land b m =? 0))%Z.
Proof.
  intros. rewrite Z.land_lor_distr_l.
  destruct (Z.eqb_spec (Z.lor (Z.land a m) (Z.land b m)) 0) as [E|E];
    destruct (Z.eqb_spec (Z.land a m) 0) as [A|A];
    destruct (Z.eqb_spec (Z.land b m) 0) as [B|B]; simpl; try reflexivity;
    try (apply Z.lor_eq_0_iff in E; tauto);
    exfalso; apply E; rewrite A, B; reflexivity.
Qed.

(** ** Queue lemmas for gets *)

Lemma Consume_head : forall q p ds hs,
  NextElement q = Some p -> ds <= data_size p -> hs <= parcel_num_objects p ->
  exists q', Consume q ds hs = Some q'.
Proof.
  intros q p ds hs Hn Hd Hh. unfold NextElement, Consume in *.
  destruct (entries q) as [|[p'|] t]; try discriminate. inversion Hn; subst.
  destruct (N.ltb_spec (data_size p) ds); [lia|].
  destruct (N.ltb_spec (parcel_num_objects p) hs); [lia|]. simpl.
  destruct (_ && _); eexists; reflexivity.
Qed.

(** ** C4 *)

(** C4: [get_next_inbound_parcel] (on any Router, terminal ones in
    particular) fails NotFound once the inbound sequence is fully consumed,
    else Unavailable when the next parcel is not queued, else
    ResourceExhausted when partial gets were not asked for and a capacity is
    too small; otherwise it consumes from the head parcel, refreshes the
    local queued counts, adds [dead] exactly when the sequence became fully
    consumed, first updates the traps with reason LocalParcelConsumed, and
    returns OK. *)
Theorem get_next_inbound_parcel_spec : forall uiqs r get_flags nb nh,
  let o := GetNextInboundParcel uiqs r get_flags nb nh in
  let q := inbound_parcels r in
  let partial := negb (Z.land get_flags IPCZ_GET_PARTIAL =? 0)%Z in
  (IsSequenceFullyConsumed q = true -> get_result o = IPCZ_RESULT_NOT_FOUND)
  /\ (IsSequenceFullyConsumed q = false -> NextElement q = None ->
      get_result o = IPCZ_RESULT_UNAVAILABLE)
  /\ (forall p, IsSequenceFullyConsumed q = false -> NextElement q = Some p ->
      partial = false ->
      size_or_zero nb < data_size p \/ size_or_zero nh < parcel_num_objects p ->
      get_result o = IPCZ_RESULT_RESOURCE_EXHAUSTED)
  /\ (forall p, IsSequenceFullyConsumed q = false -> NextElement q = Some p ->
      partial = true
      \/ (data_size p <= size_or_zero nb /\ parcel_num_objects p <= size_or_zero nh) ->
      let ds := if partial then N.min (data_size p) (size_or_zero nb) else data_size p in
      let hs := if partial then N.min (parcel_num_objects p) (size_or_zero nh)
                else parcel_num_objects p in
      exists q', Consume q ds hs = Some q'
        /\ get_result o = IPCZ_RESULT_OK
        /\ inbound_parcels (get_router o) = q'
        /\ num_local_parcels (status (get_router o)) = GetNumAvailableElements q'
        /\ num_local_bytes (status (get_router o)) = GetTotalAvailableElementSize q'
        /\ flags (status (get_router o))
           = (if IsSequenceFullyConsumed q'
              then Z.lor (flags (status r)) IPCZ_PORTAL_STATUS_DEAD
              else flags (status r))
        /\ hd_error (get_effects o)
           = Some (TrapsUpdatePortalStatus kLocalParcelConsumed (status (get_router o)))).
Proof.
  intros uiqs r flags0 nb nh o q partial. unfold o, q, partial.
  unfold GetNextInboundParcel.
  split; [|split; [|split]].
  - intros H. rewrite H. reflexivity.
  - intros H1 H2. rewrite H1, H2. reflexivity.
  - intros p H1 H2 Hp Hsmall. rewrite H1, H2, Hp. simpl.
    destruct (N.leb_spec (data_size p) (size_or_zero nb));
      destruct (N.leb_spec (parcel_num_objects p) (size_or_zero nh));
      simpl; try reflexivity; lia.
  - intros p H1 H2 Hcase. rewrite H1, H2.
    destruct (negb (Z.land flags0 IPCZ_GET_PARTIAL =? 0)%Z) eqn:B.
    + destruct (Consume_head (inbound_parcels r) p
                  (N.min (data_size p) (size_or_zero nb))
                  (N.min (parcel_num_objects p) (size_or_zero nh)) H2)
        as [q' Hq']; try lia.
      exists q'. split; [exact Hq'|]. rewrite Hq'. rewrite andb_false_r.
      unfold after_consume. simpl.
      destruct (IsSequenceFullyConsumed q'); repeat split; reflexivity.
    + destruct Hcase as [Hc|[Hd Hh]]; [discriminate|].
      destruct (Consume_head (inbound_parcels r) p (data_size p)
                  (parcel_num_objects p) H2) as [q' Hq']; try lia.
      exists q'. split; [exact Hq'|]. rewrite Hq'.
      apply N.leb_le in Hd. apply N.leb_le in Hh. rewrite Hd, Hh. simpl.
      unfold after_consume. simpl.
      destruct (IsSequenceFullyConsumed q'); repeat split; reflexivity.
Qed.

Lemma get_next_inbound_parcel_spec_witness :
  get_result (GetNextInboundParcel (fun _ _ _ => false) router_with_parcel 0
                                   (Some 8) (Some 0)) = IPCZ_RESULT_OK.
Proof.
  destruct (get_next_inbound_parcel_spec (fun _ _ _ => false) router_with_parcel 0
              (Some 8) (Some 0)) as [_ [_ [_ H]]].
  destruct (H hello eq_refl eq_refl) as [q' [_ [Hok _]]].
  - right. simpl. split; vm_compute; discriminate.
  - exact Hok.
Defined.

(** ** C9 *)

(** C9: when [get_next_inbound_parcel] returns ResourceExhausted, the Router
    is left exactly as it was and nothing is notified, but the non-null
    [*num_bytes] and [*num_handles] have been overwritten with the full data
    size and object count of the next parcel. *)
Theorem get_resource_exhausted_outputs : forall uiqs r get_flags nb nh p,
  NextElement (inbound_parcels r) = Some p ->
  let o := GetNextInboundParcel uiqs r get_flags nb nh in
  get_result o = IPCZ_RESULT_RESOURCE_EXHAUSTED ->
  get_router o = r /\ get_effects o = []
  /\ out_num_bytes o = option_map (fun _ => data_size p) nb
  /\ out_num_handles o = option_map (fun _ => parcel_num_objects p) nh.
Proof.
  intros uiqs r flags0 nb nh p Hp o. unfold o, GetNextInboundParcel.
  destruct (IsSequenceFullyConsumed (inbound_parcels r)); [discriminate|].
  rewrite Hp.
  destruct (Z.land flags0 IPCZ_GET_PARTIAL =? 0)%Z; simpl.
  - destruct (_ && _); simpl.
    + intros _. repeat split; reflexivity.
    + unfold after_consume. simpl. discriminate.
  - rewrite andb_false_r. unfold after_consume. simpl. discriminate.
Qed.

Lemma get_resource_exhausted_outputs_witness :
  let o := GetNextInboundParcel (fun _ _ _ => false) router_with_parcel 0
                                (Some 1) (Some 0) in
  get_result o = IPCZ_RESULT_RESOURCE_EXHAUSTED /\ out_num_bytes o = Some 2.
Proof.
  assert (Hre : get_result (GetNextInboundParcel (fun _ _ _ => false) router_with_parcel 0
                                                 (Some 1) (Some 0))
                = IPCZ_RESULT_RESOURCE_EXHAUSTED) by reflexivity.
  destruct (get_resource_exhausted_outputs (fun _ _ _ => false) router_with_parcel 0
              (Some 1) (Some 0) hello eq_refl Hre) as [_ [_ [Hb _]]].
  split; [exact Hre|]. rewrite Hb. reflexivity.
Defined.

(** ** Flush lemmas *)

Lemma MaybeFinishDecay_primary : forall e s t e',
  MaybeFinishDecay e s t = Some e' -> primary_link e' = primary_link e.
Proof.
  intros e s t e' H. unfold MaybeFinishDecay in H.
  destruct (decaying_link e), (length_to_decaying_link e), (length_from_decaying_link e);
    try discriminate.
  destruct (_ && _); inversion H; reflexivity.
Qed.

Lemma flush_outward_decay_primary : forall r o,
  primary_link (fst (flush_outward_decay r o)) = primary_link (outward_edge r).
Proof.
  intros. unfold flush_outward_decay.
  destruct (MaybeFinishDecay _ _ _) eqn:M; [|reflexivity].
  exact (MaybeFinishDecay_primary _ _ _ _ M).
Qed.

Lemma app_around_two {T} (a b c d r : list T) (x y : T) :
  a ++ b ++ c ++ d ++ x :: y :: r = (a ++ b ++ c ++ d) ++ x :: y :: r.
Proof. rewrite <- !app_assoc. reflexivity. Qed.

(** ** C5 *)

(** C5: in [Flush] on a Router whose outward primary link [l] is central,
    when the outbound sequence (final length [F]) is fully consumed once the
    parcels to send are collected and [try_lock_for_closure] on [l]
    succeeds, the outward primary link is released, and [l] is sent
    [route_closure(F)] and then deactivated. *)
Theorem flush_closes_route_on_central_link : forall tl sb behavior r l F,
  primary_link (outward_edge r) = Some l ->
  is_central (link_type l) = true ->
  final_sequence_length (outbound_parcels r) = Some F ->
  IsSequenceFullyConsumed
    (fst (CollectParcelsToFlush (outbound_parcels r) (outward_edge r) [])) = true ->
  tl l = true ->
  let '(r', eff) := Flush tl sb behavior r in
  primary_link (outward_edge r') = None
  /\ exists pre post,
       eff = pre ++ LinkAcceptRouteClosure l F :: LinkDeactivate l :: post.
Proof.
  intros tl sb behavior r l F Hl Hc HF Hfc Htl.
  pose proof (collect_final (outbound_parcels r) (outward_edge r) []) as Cf.
  pose proof (flush_outward_decay_primary r
                (fst (CollectParcelsToFlush (outbound_parcels r) (outward_edge r) [])))
    as Dp.
  unfold Flush. rewrite Hl, Hc.
  destruct (CollectParcelsToFlush (outbound_parcels r) (outward_edge r) [])
    as [outbound1 parcels1]. simpl in Cf, Hfc, Dp.
  destruct (flush_outward_decay r outbound1) as [oe1 odec]. simpl in Dp.
  destruct (flush_inward r outbound1 parcels1) as [[[inbound1 parcels2] ie1] idec].
  unfold flush_outward_closure at 1. rewrite Hfc, Htl. simpl.
  rewrite Dp, Hl, Cf, HF.
  destruct (flush_inward_closure _ _ _ _) as [[[[[ie2 b2] di] db] bl'] fi].
  simpl. split; [reflexivity|].
  eexists; eexists. rewrite app_around_two. reflexivity.
Qed.

Lemma flush_closes_route_on_central_link_witness :
  snd (Flush (fun _ => true) no_self_bypass kDefault closing_router)
  = [LinkAcceptParcel central_link hello; LinkAcceptRouteClosure central_link 1;
     LinkDeactivate central_link].
Proof.
  pose proof (flush_closes_route_on_central_link (fun _ => true) no_self_bypass kDefault
                closing_router central_link 1 eq_refl eq_refl eq_refl eq_refl eq_refl) as H.
  destruct (Flush (fun _ => true) no_self_bypass kDefault closing_router) as [r' eff] eqn:E.
  destruct H as [_ [pre [post Heff]]].
  vm_compute in E. inversion E. reflexivity.
Defined.

(** ** C8 *)

(** C8 (as stated, false): merging a terminal Router that has already sent a
    parcel is rejected, but with FailedPrecondition, not InvalidArgument. *)
Lemma merge_used_router_failed_precondition :
  inward_edge used_router = None /\ bridge used_router = None
  /\ GetCurrentSequenceLength (outbound_parcels used_router) = 1
  /\ fst (fst (fst (MergeRoute no_lock no_self_bypass used_router (new_router 11) 20 21)))
     = IPCZ_RESULT_FAILED_PRECONDITION.
Proof. vm_compute. auto. Qed.

(** C8 (amended): [merge_route(other)] returns InvalidArgument when [other]
    is this Router or its local peer, or when either Router has an inward
    edge or a bridge; otherwise FailedPrecondition when either Router has
    consumed or sent a non-zero sequence number; in both cases nothing
    changes.  Otherwise it returns OK: [other] gets a bridge whose link
    leads back to this Router, and this Router gets a bridge whose link
    leads to [other] and is then flushed. *)
Theorem merge_route_result : forall tl sb r other a b,
  let misuse := HasLocalPeer r other || (router_id other =? router_id r) in
  let non_terminal := isSome (inward_edge r) || isSome (inward_edge other)
                      || isSome (bridge r) || isSome (bridge other) in
  let used := (0 <? current_sequence_number (inbound_parcels r))
              || (0 <? GetCurrentSequenceLength (outbound_parcels r))
              || (0 <? current_sequence_number (inbound_parcels other))
              || (0 <? GetCurrentSequenceLength (outbound_parcels other)) in
  let '(res, r', other', eff) := MergeRoute tl sb r other a b in
  (misuse || non_terminal = true ->
     res = IPCZ_RESULT_INVALID_ARGUMENT /\ r' = r /\ other' = other /\ eff = [])
  /\ (misuse || non_terminal = false -> used = true ->
     res = IPCZ_RESULT_FAILED_PRECONDITION /\ r' = r /\ other' = other /\ eff = [])
  /\ (misuse || non_terminal || used = false ->
     res = IPCZ_RESULT_OK
     /\ other' = set_edges other (outward_edge other) (inward_edge other)
                   (Some (SetPrimaryLink empty_edge
                            (mkRouterLink b kBridge (Some (router_id r)))))
     /\ (r', eff) = Flush tl sb kDefault
                      (set_edges r (outward_edge r) (inward_edge r)
                         (Some (SetPrimaryLink empty_edge
                                  (mkRouterLink a kBridge (Some (router_id other))))))).
Proof.
  intros tl sb r other a b misuse non_terminal used.
  unfold MergeRoute. fold misuse non_terminal used.
  destruct misuse eqn:M; simpl.
  - repeat split; intros; try discriminate; auto.
  - destruct non_terminal eqn:NT; simpl.
    + repeat split; intros; try discriminate; auto.
    + destruct used eqn:U; simpl.
      * repeat split; intros; try discriminate; auto.
      * destruct (Flush _ _ _ _) as [r2 eff] eqn:FE.
        repeat split; intros; try discriminate; auto.
Qed.

Lemma merge_route_result_witness :
  fst (fst (fst (MergeRoute no_lock no_self_bypass (new_router 12) (new_router 13) 22 23)))
  = IPCZ_RESULT_OK.
Proof.
  pose proof (merge_route_result no_lock no_self_bypass (new_router 12) (new_router 13)
                22 23) as H.
  destruct (MergeRoute no_lock no_self_bypass (new_router 12) (new_router 13) 22 23)
    as [[[res r'] o'] eff].
  destruct H as [_ [_ H3]]. simpl. apply H3. reflexivity.
Defined.

(** ** Helper lemmas for Deserialize and the status flags *)

Lemma Flush_disconnected : forall tl sb b r,
  is_disconnected (fst (Flush tl sb b r)) = is_disconnected r.
Proof. intros. unfold Flush. destruct_pairs. reflexivity. Qed.

Lemma lor_sets_bit : forall x m, m <> 0%Z -> (Z.land (Z.lor x m) m =? 0)%Z = false.
Proof.
  intros x m Hm. rewrite land_lor_eq0, Z.land_diag.
  destruct (Z.eqb_spec m 0); [contradiction | apply andb_false_r].
Qed.

Lemma lor_keeps_bit : forall x b m,
  (Z.land x m =? 0)%Z = false -> (Z.land (Z.lor x b) m =? 0)%Z = false.
Proof. intros x b m H. rewrite land_lor_eq0, H. reflexivity. Qed.

Lemma SetFinal_reset_none : forall n f,
  SetFinalSequenceLength (ResetInitialSequenceNumber empty_queue n) f = None <-> f < n.
Proof.
  intros n f. unfold SetFinalSequenceLength. simpl. rewrite N.add_0_r.
  destruct (N.ltb_spec f n); split; intros; try discriminate; try lia; reflexivity.
Qed.

Lemma AcceptRouteDisconnectedFrom_terminal : forall tl sb r lt,
  inward_edge r = None -> bridge r = None ->
  let r' := snd (fst (AcceptRouteDisconnectedFrom tl sb r lt)) in
  is_disconnected r' = true /\ peer_closed r' = true.
Proof.
  intros tl sb r lt Hi Hb. unfold AcceptRouteDisconnectedFrom.
  destruct (is_peripheral_inward lt); simpl; rewrite Hi, Hb; destruct_pairs; simpl;
    pose proof (f_equal fst E) as F; cbn [fst] in F; rewrite <- F;
    (split; [rewrite Flush_disconnected; reflexivity|]);
    unfold peer_closed; rewrite Flush_status; simpl;
    (destruct (IsSequenceFullyConsumed _); simpl;
     [rewrite lor_keeps_bit; [reflexivity|] |]; rewrite lor_sets_bit; reflexivity || discriminate).
Qed.

(** ** C10 *)

(** C10: [Deserialize] returns null exactly when the descriptor is
    peer-closed and setting the final inbound length to
    [closed_peer_sequence_length] fails, which happens exactly when that
    length precedes [next_incoming_sequence_number].  When the descriptor
    is not peer-closed and the sublink is already registered on the
    NodeLink, the result is a Router that went through
    [AcceptRouteDisconnectedFrom(kPeripheralOutward)] and the final flush:
    it is disconnected and its peer is closed. *)
Theorem deserialize_null_iff : forall tl sb D nl id,
  let next_in := next_incoming_sequence_number D in
  let closed_len := closed_peer_sequence_length D in
  let res := fst (fst (Deserialize tl sb D nl id)) in
  (res = None <-> descriptor_peer_closed D = true
                  /\ SetFinalSequenceLength (ResetInitialSequenceNumber empty_queue next_in)
                                            closed_len = None)
  /\ (SetFinalSequenceLength (ResetInitialSequenceNumber empty_queue next_in) closed_len
      = None <-> closed_len < next_in)
  /\ (descriptor_peer_closed D = false ->
      existsb (N.eqb (new_sublink D)) (sublinks nl) = true ->
      let r1 := snd (fst (AcceptRouteDisconnectedFrom tl sb (deserialized_base D id)
                                                      kPeripheralOutward)) in
      res = Some (fst (Flush tl sb kForceProxyBypassAttempt r1))
      /\ is_disconnected (fst (Flush tl sb kForceProxyBypassAttempt r1)) = true
      /\ peer_closed (fst (Flush tl sb kForceProxyBypassAttempt r1)) = true).
Proof.
  intros tl sb D nl id next_in closed_len res.
  split; [|split; [apply SetFinal_reset_none|]].
  - unfold res, Deserialize. destruct (descriptor_peer_closed D) eqn:P.
    + destruct (SetFinalSequenceLength _ _) as [q|] eqn:S.
      * unfold deserialize_link. destruct_pairs. simpl.
        split; [discriminate|]. intros [_ S']. discriminate.
      * simpl. split; intros; try split; reflexivity.
    + unfold deserialize_link. destruct_pairs. simpl.
      split; [discriminate|]. intros [H _]. discriminate.
  - intros P Hex r1.
    assert (Hr1 : is_disconnected r1 = true /\ peer_closed r1 = true)
      by (apply AcceptRouteDisconnectedFrom_terminal; reflexivity).
    unfold peer_closed in *. rewrite Flush_disconnected, Flush_status.
    split; [|exact Hr1].
    unfold res, Deserialize. rewrite P. unfold deserialize_link, AddRemoteRouterLink.
    rewrite Hex. simpl. rewrite P. simpl.
    unfold r1, deserialized_base. destruct_pairs. simpl.
    destruct (AcceptRouteDisconnectedFrom _ _ _ _) as [[ok ra] effa].
    injection E as <- <-. cbn [fst snd]. rewrite E0. reflexivity.
Qed.

Lemma deserialize_null_iff_witness :
  exists r', fst (fst (Deserialize no_lock no_self_bypass taken_descriptor taken_node_link 30))
             = Some r' /\ is_disconnected r' = true /\ peer_closed r' = true.
Proof.
  destruct (deserialize_null_iff no_lock no_self_bypass taken_descriptor taken_node_link 30)
    as [_ [_ H]].
  destruct (H eq_refl eq_refl) as [A [B C]].
  eexists. split; [exact A | split; [exact B | exact C]].
Defined.

(** ** Helper lemmas for the serialization round trip *)




(** ** C6 *)







(** ** C2 *)

Lemma flags_grow_trans : forall r1 r2 r3,
  flags_grow r1 r2 -> flags_grow r2 r3 -> flags_grow r1 r3.
Proof.
  intros r1 r2 r3 [x Hx] [y Hy]. exists (Z.lor x y).
  rewrite Hy, Hx, Z.lor_assoc. reflexivity.
Qed.

Lemma flags_grow_keeps : forall r r' m,
  flags_grow r r' -> (Z.land (flags (status r)) m =? 0)%Z = false ->
  (Z.land (flags (status r')) m =? 0)%Z = false.
Proof. intros r r' m [x Hx] H. rewrite Hx. apply lor_keeps_bit. exact H. Qed.

Lemma flags_grow_status : forall r r', status r' = status r -> flags_grow r r'.
Proof. intros r r' H. exists 0%Z. rewrite H, Z.lor_0_r. reflexivity. Qed.

Lemma Flush_flags_grow : forall tl sb b r, flags_grow r (fst (Flush tl sb b r)).
Proof. intros. apply flags_grow_status, Flush_status. Qed.

(** Replaces each [Flush] call by its result, remembering that the result's
    flags grow from the argument's, and splits every other case of the
    code. *)
Ltac open_call :=
  match goal with
  | |- context [Flush ?a ?b ?c ?x] =>
      let G := fresh "G" in
      pose proof (Flush_flags_grow a b c x) as G;
      destruct (Flush a b c x) as [? ?]; cbn [fst] in G
  end.

Ltac grow_cases :=
  repeat (cbn beta iota zeta in *;
          first [ open_call
                | match goal with
                  | |- context [match ?x with Some q => @?f q | None => ?g end] => destruct x
                  | |- context [if ?x then _ else _] => destruct x
                  end
                | match goal with
                  | |- context [match ?x with (a, b) => @?f a b end] => destruct x
                  end ]).

Ltac grow_close :=
  repeat match goal with
         | G : flags_grow ?x ?y |- flags_grow _ ?y =>
             apply (flags_grow_trans _ x _); [|exact G]; clear G
         end;
  unfold flags_grow; cbn;
  first [ exists 0%Z; rewrite Z.lor_0_r; reflexivity
        | eexists; reflexivity
        | eexists; rewrite <- Z.lor_assoc; reflexivity ].

Lemma NotifyPeerConsumedData_flags_grow : forall gpqs tnrs r,
  flags_grow r (fst (NotifyPeerConsumedData gpqs tnrs r)).
Proof. intros. unfold NotifyPeerConsumedData. grow_cases; grow_close. Qed.

Lemma router_step_flags_grow : forall r r', router_step r r' -> flags_grow r r'.
Proof.
  intros r r' S. destruct S.
  - unfold SendOutboundParcel. grow_cases; grow_close.
  - unfold CloseRoute. grow_cases; grow_close.
  - unfold AcceptInboundParcel. grow_cases; grow_close.
  - unfold AcceptOutboundParcel. grow_cases; grow_close.
  - unfold AcceptRouteClosureFrom. grow_cases; grow_close.
  - unfold AcceptRouteDisconnectedFrom. grow_cases; grow_close.
  - apply NotifyPeerConsumedData_flags_grow.
  - unfold GetNextInboundParcel, after_consume. grow_cases; grow_close.
  - unfold CommitGetNextIncomingParcel, after_consume. grow_cases; grow_close.
  - unfold Trap. destruct res, need; cbn beta iota zeta delta [negb];
      try match goal with
          | |- context [NotifyPeerConsumedData ?a ?b ?x] =>
              pose proof (NotifyPeerConsumedData_flags_grow a b x) as G;
              destruct (NotifyPeerConsumedData a b x); cbn [fst snd] in *;
              apply (flags_grow_trans _ x _); [|exact G]; clear G
          end; grow_cases; grow_close.
  - unfold SetOutwardLink. grow_cases; grow_close.
  - unfold MergeRoute. grow_cases; grow_close.
  - unfold MergeRoute. grow_cases; grow_close.
  - unfold SerializeNewRouter. grow_cases; grow_close.
  - grow_cases; grow_close.
  - grow_close.
Qed.

Lemma flags_grow_refl : forall r, flags_grow r r.
Proof. intros r. apply flags_grow_status. reflexivity. Qed.

Lemma router_steps_flags_grow : forall r r',
  clos_refl_trans Router router_step r r' -> flags_grow r r'.
Proof.
  intros r r' H. induction H as [x y S | x | x y z _ IH1 _ IH2].
  - apply router_step_flags_grow. exact S.
  - apply flags_grow_refl.
  - exact (flags_grow_trans x y z IH1 IH2).
Qed.

(** C2: along any sequence of Router operations, a set [peer_closed] flag
    stays set, and a set [dead] flag stays set. *)
Theorem status_flags_monotonic : forall r r',
  clos_refl_trans Router router_step r r' ->
  (peer_closed r = true -> peer_closed r' = true)
  /\ (dead r = true -> dead r' = true).
Proof.
  intros r r' H. pose proof (router_steps_flags_grow r r' H) as G.
  unfold peer_closed, dead. split; intros P;
    apply negb_true_iff in P; apply negb_true_iff;
    exact (flags_grow_keeps r r' _ G P).
Qed.

Lemma status_flags_monotonic_witness :
  peer_closed closed_router = true /\ peer_closed closed_then_sent = true.
Proof.
  assert (P : peer_closed closed_router = true) by (vm_compute; reflexivity).
  split; [exact P|].
  apply (proj1 (status_flags_monotonic closed_router closed_then_sent
                  (rt_step _ _ _ _ (step_send _ no_lock no_self_bypass hello)))).
  exact P.
Defined.

(** * Properties of the rest of the Router, Portal, NodeLink, NodeLinkMemory and LocalRouterLink code *)

(** With no primary and no decaying link, collecting parcels to flush takes nothing. *)
Lemma collect_loop_no_links : forall fuel q e ps,
  primary_link e = None -> decaying_link e = None ->
  collect_loop fuel q e ps = (q, ps).
Proof.
  intros [|fuel] q e ps Hp Hd; simpl; [reflexivity|].
  unfold ShouldTransmitOnDecayingLink. rewrite Hp, Hd. simpl.
  destruct (HasNextElement q); reflexivity.
Qed.

(** Without outward links, [Flush] leaves the outbound queue alone. *)
Lemma Flush_outbound_no_links : forall tl sb b r,
  primary_link (outward_edge r) = None -> decaying_link (outward_edge r) = None ->
  outbound_parcels (fst (Flush tl sb b r)) = outbound_parcels r.
Proof.
  intros tl sb b r Hp Hd. unfold Flush. destruct_pairs. simpl.
  unfold CollectParcelsToFlush in E. rewrite collect_loop_no_links in E by assumption.
  injection E as <- <-. reflexivity.
Qed.

(** On a terminal Router (no inward edge, no bridge), [Flush] leaves the inbound queue alone. *)
Lemma Flush_inbound_terminal : forall tl sb b r,
  inward_edge r = None -> bridge r = None ->
  inbound_parcels (fst (Flush tl sb b r)) = inbound_parcels r.
Proof.
  intros tl sb b r Hi Hb. unfold Flush. destruct_pairs. simpl.
  unfold flush_inward in E1. rewrite Hi, Hb in E1.
  destruct (flush_bridge_link r); injection E1 as <- _ _ _; reflexivity.
Qed.

(** The outward closure step either drops the primary link or keeps it. *)
Lemma flush_outward_closure_primary : forall tl c ol e o i,
  primary_link (fst (fst (flush_outward_closure tl c ol e o i))) = None
  \/ primary_link (fst (fst (flush_outward_closure tl c ol e o i))) = primary_link e.
Proof.
  intros. unfold flush_outward_closure, ReleasePrimaryLink.
  destruct (_ && _ && _); [simpl; auto|].
  destruct (negb _); simpl; auto.
Qed.

(** [Flush] either drops the outward primary link or keeps it. *)
Lemma Flush_outward_primary : forall tl sb b r,
  primary_link (outward_edge (fst (Flush tl sb b r))) = None
  \/ primary_link (outward_edge (fst (Flush tl sb b r))) = primary_link (outward_edge r).
Proof.
  intros tl sb b r. unfold Flush. destruct_pairs. simpl.
  pose proof (flush_outward_decay_primary r p) as D. rewrite E0 in D. simpl in D.
  match goal with
  | H : flush_outward_closure _ ?c ?ol ?e ?o ?i = _ |- _ =>
      pose proof (flush_outward_closure_primary tl c ol e o i) as C; rewrite H in C
  end.
simpl in C. rewrite <- D. exact C.
Qed.

(** Setting the slot just past a full list of parcels appends the parcel. *)
Lemma set_slot_append : forall ps x,
  set_slot (map Some ps) (length ps) x = Some (map Some ps ++ [Some x]).
Proof. induction ps as [|p ps IH]; intros x; simpl; [reflexivity|]. rewrite IH. reflexivity. Qed.

(** A list of present parcels is all leading. *)
Lemma num_leading_map : forall ps, num_leading (map Some ps) = length ps.
Proof. induction ps; simpl; auto. Qed.

(** The leading size of a list grows by the size of an appended parcel. *)
Lemma leading_size_app : forall ps x,
  leading_size (map Some (ps ++ [x])) = leading_size (map Some ps) + data_size x.
Proof. induction ps as [|p ps IH]; intros x; simpl; [lia|]. rewrite IH. lia. Qed.

(** Pushing at the current sequence length either fails or appends the parcel. *)
Lemma Push_at_end : forall q ps x,
  entries q = map Some ps ->
  Push q (GetCurrentSequenceLength q) x = None
  \/ exists q', Push q (GetCurrentSequenceLength q) x = Some q'
       /\ entries q' = map Some (ps ++ [x]).
Proof.
  intros q ps x E. unfold Push, GetCurrentSequenceLength, GetNumAvailableElements.
  rewrite E, num_leading_map.
  replace (N.to_nat (current_sequence_number q + N.of_nat (length ps)
                     - current_sequence_number q)) with (length ps) by lia.
  rewrite set_slot_append, map_app.
  destruct (_ <? _); [left; reflexivity|].
  destruct (final_sequence_length q) as [f|]; [destruct (f <=? _); [left; reflexivity|]|];
    right; eexists; split; reflexivity.
Qed.

(** Without an outward link, the outbound capacity in bytes is zero or stays within the byte limit. *)
Lemma capacity_no_link : forall gpcb r l,
  primary_link (outward_edge r) = None ->
  GetTotalAvailableElementSize (outbound_parcels r) <= max_queued_bytes l ->
  GetOutboundCapacityInBytes gpcb r l = 0
  \/ GetTotalAvailableElementSize (outbound_parcels r) + GetOutboundCapacityInBytes gpcb r l
     <= max_queued_bytes l.
Proof.
  intros gpcb r l Hp Ht. unfold GetOutboundCapacityInBytes. rewrite Hp.
  repeat match goal with |- context [if ?c then _ else _] => destruct c eqn:? end;
    auto; right; rewrite ?N.leb_gt in *; lia.
Qed.

(** [Portal::Put] with limits on a Router with no outward link never queues more outbound bytes than the byte limit, when the queue started within it. *)
Theorem put_keeps_outbound_bytes_within_limit :
  forall tl sb gpcb fh p data handles limits ps,
  primary_link (outward_edge (portal.router p)) = None ->
  decaying_link (outward_edge (portal.router p)) = None ->
  entries (outbound_parcels (portal.router p)) = map Some ps ->
  GetTotalAvailableElementSize (outbound_parcels (portal.router p)) <= max_queued_bytes limits ->
  GetTotalAvailableElementSize
    (outbound_parcels (portal.router (snd (fst (portal.Put tl sb gpcb fh p data handles (Some limits))))))
  <= max_queued_bytes limits.
Proof.
  intros tl sb gpcb fh p data handles limits ps Hp Hd Hps Ht.
  destruct (portal.Put _ _ _ _ _ _ _ _) as [[result p'] eff] eqn:Hput. simpl.
  unfold portal.Put in Hput.
  destruct (negb _); [injection Hput as _ <- _; exact Ht|].
  destruct (peer_closed _); [injection Hput as _ <- _; exact Ht|].
  destruct (_ <? _) eqn:C; [injection Hput as _ <- _; exact Ht|].
  apply N.ltb_ge in C.
  unfold SendOutboundParcel in Hput.
  destruct (isSome _); [injection Hput as _ <- _; exact Ht|].
  rewrite Hp in Hput.
  destruct (Flush _ _ _ _) as [r' e'] eqn:F.
  injection Hput as _ <- _. simpl.
  assert (Hr := Flush_outbound_no_links tl sb kDefault
    (set_outbound (portal.router p)
       (match Push (outbound_parcels (portal.router p))
                   (GetCurrentSequenceLength (outbound_parcels (portal.router p)))
                   (set_sequence_number (mkParcel 0 data (N.of_nat (length handles)))
                      (GetCurrentSequenceLength (outbound_parcels (portal.router p)))) with
        | Some q => q | None => outbound_parcels (portal.router p) end)) Hp Hd).
  rewrite F in Hr. simpl in Hr. rewrite Hr.
  destruct (Push_at_end (outbound_parcels (portal.router p)) ps
    (set_sequence_number (mkParcel 0 data (N.of_nat (length handles)))
       (GetCurrentSequenceLength (outbound_parcels (portal.router p)))) Hps)
    as [-> | [q' [-> Hq']]]; [exact Ht|].
  unfold GetTotalAvailableElementSize in *. rewrite Hq', leading_size_app.
  rewrite <- Hps. unfold data_size; simpl.
  destruct (capacity_no_link gpcb (portal.router p) limits Hp Ht) as [Z|Z];
    unfold GetTotalAvailableElementSize in Z; lia.
Qed.

(** The hypotheses of [put_keeps_outbound_bytes_within_limit] hold on a concrete input. *)
Lemma put_keeps_outbound_bytes_within_limit_witness :
  primary_link (outward_edge (portal.router unlinked_portal)) = None /\
  decaying_link (outward_edge (portal.router unlinked_portal)) = None /\
  entries (outbound_parcels (portal.router unlinked_portal)) = map Some [] /\
  GetTotalAvailableElementSize (outbound_parcels (portal.router unlinked_portal))
    <= max_queued_bytes two_byte_limits /\
  GetTotalAvailableElementSize
    (outbound_parcels (portal.router (snd (fst (portal.Put no_lock no_self_bypass no_link_capacity
       no_objects unlinked_portal (parcel_data hello) [] (Some two_byte_limits))))))
  <= max_queued_bytes two_byte_limits.
Proof.
  assert (H1 : primary_link (outward_edge (portal.router unlinked_portal)) = None) by reflexivity.
  assert (H2 : decaying_link (outward_edge (portal.router unlinked_portal)) = None) by reflexivity.
  assert (H3 : entries (outbound_parcels (portal.router unlinked_portal)) = map Some []) by reflexivity.
  assert (H4 : GetTotalAvailableElementSize (outbound_parcels (portal.router unlinked_portal))
    <= max_queued_bytes two_byte_limits) by (vm_compute; discriminate).
  repeat split; try assumption.
  exact (put_keeps_outbound_bytes_within_limit no_lock no_self_bypass no_link_capacity no_objects
           unlinked_portal (parcel_data hello) [] two_byte_limits [] H1 H2 H3 H4).
Defined.

(** A [Portal::Put] of no data behaves the same with or without limits. *)
Theorem zero_byte_put_ignores_limits : forall tl sb gpcb fh p handles limits,
  portal.Put tl sb gpcb fh p [] handles (Some limits)
  = portal.Put tl sb gpcb fh p [] handles None.
Proof.
  intros. unfold portal.Put. simpl.
  destruct (GetOutboundCapacityInBytes _ _ _ <? 0) eqn:C; [apply N.ltb_lt in C; lia|].
  reflexivity.
Qed.

(** Consuming the whole head parcel pops it. *)
Lemma Consume_whole_head : forall q p,
  NextElement q = Some p ->
  Consume q (data_size p) (parcel_num_objects p) = option_map snd (Pop q).
Proof.
  intros q p H. unfold NextElement, Consume, Pop in *.
  destruct (entries q) as [|[p0|] t]; try discriminate. injection H as ->.
  rewrite !N.ltb_irrefl. simpl.
  unfold data_size; simpl. rewrite Nat2N.id, skipn_all, N.sub_diag. reflexivity.
Qed.

(** After a successful [BeginGet], [CommitGet] of the sizes it reported succeeds, pops the parcel whose data [BeginGet] returned, ends the two-phase get, leaves the local counts equal to the queue, and a second [CommitGet] fails with [IPCZ_RESULT_FAILED_PRECONDITION]. *)
Theorem begin_get_then_commit_get : forall uiqs p d0 nb0 nh0 p1 d nb nh,
  portal.BeginGet p (Some d0) (Some nb0) (Some nh0)
  = (portal.RouterResult IPCZ_RESULT_OK, p1, (Some d, Some nb, Some nh)) ->
  let '(res, p2, _) := portal.CommitGet uiqs p1 nb nh in
  res = IPCZ_RESULT_OK /\ portal.in_two_phase_get_ p2 = false /\
  (exists parcel, Pop (inbound_parcels (portal.router p))
                  = Some (parcel, inbound_parcels (portal.router p2))
                  /\ parcel_data parcel = d) /\
  num_local_parcels (status (portal.router p2))
    = GetNumAvailableElements (inbound_parcels (portal.router p2)) /\
  num_local_bytes (status (portal.router p2))
    = GetTotalAvailableElementSize (inbound_parcels (portal.router p2)) /\
  fst (fst (portal.CommitGet uiqs p2 nb nh)) = IPCZ_RESULT_FAILED_PRECONDITION.
Proof.
  intros uiqs p d0 nb0 nh0 p1 d nb nh H.
  unfold portal.BeginGet in H.
  destruct (portal.in_two_phase_get_ p) eqn:T2; [discriminate|].
  destruct (dead (portal.router p)); [discriminate|].
  unfold BeginGetNextIncomingParcel in H.
  destruct (isSome (inward_edge (portal.router p))) eqn:I; [discriminate|].
  destruct (NextElement (inbound_parcels (portal.router p))) as [pc|] eqn:NE; [|discriminate].
  destruct (_ || _); [discriminate|].
  simpl in H. injection H as <- <- <- <-.
  unfold portal.CommitGet, CommitGetNextIncomingParcel. simpl. rewrite I, NE, !N.ltb_irrefl. simpl.
  rewrite Consume_whole_head by exact NE.
  unfold Pop. unfold NextElement in NE.
  destruct (entries (inbound_parcels (portal.router p))) as [|[p0|] t] eqn:Es; try discriminate.
  injection NE as ->. simpl.
  destruct (IsSequenceFullyConsumed _); repeat split; try reflexivity;
    eexists; split; reflexivity.
Qed.

(** After a successful [BeginGet], a second [BeginGet] gives [IPCZ_RESULT_ALREADY_EXISTS], [AbortGet] restores the portal exactly, and a second [AbortGet] fails with [IPCZ_RESULT_FAILED_PRECONDITION]. *)
Theorem begin_get_then_abort_get : forall p d nb nh p1 outs d' nb' nh',
  portal.BeginGet p d nb nh = (portal.RouterResult IPCZ_RESULT_OK, p1, outs) ->
  fst (fst (portal.BeginGet p1 d' nb' nh')) = portal.IPCZ_RESULT_ALREADY_EXISTS /\
  portal.AbortGet p1 = (IPCZ_RESULT_OK, p) /\
  fst (portal.AbortGet p) = IPCZ_RESULT_FAILED_PRECONDITION.
Proof.
  intros p d nb nh p1 outs d' nb' nh' H.
  unfold portal.BeginGet in H.
  destruct p as [id r t pp]; simpl in *.
  destruct t; [discriminate|].
  destruct (dead r); [discriminate|].
  destruct (begin_result _) eqn:B; try discriminate.
  injection H as <- _. simpl. repeat split.
Qed.

(** The hypotheses of [begin_get_then_commit_get] hold on a concrete input. *)
Lemma begin_get_then_commit_get_witness :
  portal.BeginGet parcel_portal (Some []) (Some 0) (Some 0)
  = (portal.RouterResult IPCZ_RESULT_OK, portal.set_in_two_phase_get parcel_portal true,
     (Some (parcel_data hello), Some 2, Some 0)) /\
  let '(res, p2, _) := portal.CommitGet no_inbound_update
                         (portal.set_in_two_phase_get parcel_portal true) 2 0 in
  res = IPCZ_RESULT_OK /\ portal.in_two_phase_get_ p2 = false /\
  (exists parcel, Pop (inbound_parcels (portal.router parcel_portal))
                  = Some (parcel, inbound_parcels (portal.router p2))
                  /\ parcel_data parcel = parcel_data hello) /\
  num_local_parcels (status (portal.router p2))
    = GetNumAvailableElements (inbound_parcels (portal.router p2)) /\
  num_local_bytes (status (portal.router p2))
    = GetTotalAvailableElementSize (inbound_parcels (portal.router p2)) /\
  fst (fst (portal.CommitGet no_inbound_update p2 2 0)) = IPCZ_RESULT_FAILED_PRECONDITION.
Proof.
  assert (H : portal.BeginGet parcel_portal (Some []) (Some 0) (Some 0)
    = (portal.RouterResult IPCZ_RESULT_OK, portal.set_in_two_phase_get parcel_portal true,
       (Some (parcel_data hello), Some 2, Some 0))) by reflexivity.
  exact (conj H (begin_get_then_commit_get no_inbound_update parcel_portal [] 0 0 _ _ _ _ H)).
Defined.

(** The hypotheses of [begin_get_then_abort_get] hold on a concrete input. *)
Lemma begin_get_then_abort_get_witness :
  portal.BeginGet parcel_portal (Some []) (Some 0) (Some 0)
  = (portal.RouterResult IPCZ_RESULT_OK, portal.set_in_two_phase_get parcel_portal true,
     (Some (parcel_data hello), Some 2, Some 0)) /\
  fst (fst (portal.BeginGet (portal.set_in_two_phase_get parcel_portal true) None None None))
    = portal.IPCZ_RESULT_ALREADY_EXISTS /\
  portal.AbortGet (portal.set_in_two_phase_get parcel_portal true) = (IPCZ_RESULT_OK, parcel_portal) /\
  fst (portal.AbortGet parcel_portal) = IPCZ_RESULT_FAILED_PRECONDITION.
Proof.
  assert (H : portal.BeginGet parcel_portal (Some []) (Some 0) (Some 0)
    = (portal.RouterResult IPCZ_RESULT_OK, portal.set_in_two_phase_get parcel_portal true,
       (Some (parcel_data hello), Some 2, Some 0))) by reflexivity.
  exact (conj H (begin_get_then_abort_get parcel_portal _ _ _ _ _ None None None H)).
Defined.

(** Committing part of the next inbound parcel of a terminal Router leaves the rest of it at the head of the queue, with the same sequence number, and lowers the local byte count by the bytes consumed. *)
Theorem partial_commit_keeps_rest : forall uiqs r p nb nh,
  inward_edge r = None ->
  NextElement (inbound_parcels r) = Some p ->
  nb <= data_size p -> nh <= parcel_num_objects p ->
  nb < data_size p \/ nh < parcel_num_objects p ->
  let '(res, r', _) := CommitGetNextIncomingParcel uiqs r nb nh in
  res = IPCZ_RESULT_OK /\
  current_sequence_number (inbound_parcels r') = current_sequence_number (inbound_parcels r) /\
  (exists p', NextElement (inbound_parcels r') = Some p' /\
     parcel_sequence_number p' = parcel_sequence_number p /\
     parcel_data p' = skipn (N.to_nat nb) (parcel_data p) /\
     parcel_num_objects p' = parcel_num_objects p - nh) /\
  num_local_parcels (status r') = GetNumAvailableElements (inbound_parcels r) /\
  num_local_bytes (status r') = GetTotalAvailableElementSize (inbound_parcels r) - nb.
Proof.
  intros uiqs r p nb nh Hi NE Hb Hh Hlt.
  unfold CommitGetNextIncomingParcel. rewrite Hi, NE. simpl.
  assert (L1 : (data_size p <? nb) = false) by (apply N.ltb_ge; lia).
  assert (L2 : (parcel_num_objects p <? nh) = false) by (apply N.ltb_ge; lia).
  rewrite L1, L2. simpl.
  unfold NextElement in NE. unfold Consume, GetNumAvailableElements, GetTotalAvailableElementSize.
  destruct (entries (inbound_parcels r)) as [|[p0|] t] eqn:Es; try discriminate.
  injection NE as ->. rewrite L1, L2. simpl.
  assert (Hsz : data_size (mkParcel (parcel_sequence_number p) (skipn (N.to_nat nb) (parcel_data p))
                                    (parcel_num_objects p - nh)) = data_size p - nb).
  { unfold data_size; simpl. rewrite length_skipn. unfold data_size in Hb. lia. }
  unfold data_size in *. simpl in *.
  destruct ((N.of_nat (length (skipn (N.to_nat nb) (parcel_data p))) =? 0)
            && (parcel_num_objects p - nh =? 0)) eqn:Z.
  { apply andb_true_iff in Z as [Z1 Z2]. apply N.eqb_eq in Z1, Z2.
    unfold data_size in Hlt. lia. }
  unfold after_consume. simpl.
  destruct (IsSequenceFullyConsumed _); simpl;
    (split; [reflexivity|]; split; [reflexivity|]; split;
     [eexists; repeat split; reflexivity|]; unfold data_size in *; split; simpl; lia).
Qed.

(** Setting an occupied slot fails. *)
Lemma set_slot_occupied : forall es i p p0,
  nth_error es i = Some (Some p0) -> set_slot es i p = None.
Proof.
  induction es as [|e es IH]; intros [|i] p p0 H; simpl in *; try discriminate.
  - injection H as ->. reflexivity.
  - rewrite (IH i p p0 H). reflexivity.
Qed.

(** [Push] refuses a parcel below the current sequence number, at or past the final length, or for an occupied slot. *)
Lemma Push_refused : forall q p,
  parcel_sequence_number p < current_sequence_number q
  \/ (exists f, final_sequence_length q = Some f /\ f <= parcel_sequence_number p)
  \/ (exists p0, nth_error (entries q)
                   (N.to_nat (parcel_sequence_number p - current_sequence_number q))
                 = Some (Some p0)) ->
  Push q (parcel_sequence_number p) p = None.
Proof.
  intros q p H. unfold Push.
  destruct (_ <? _) eqn:C; [reflexivity|]. apply N.ltb_ge in C.
  destruct H as [H|[[f [Hf Hle]]|[p0 H]]]; [lia| |].
  - rewrite Hf. apply N.leb_le in Hle. rewrite Hle. reflexivity.
  - rewrite (set_slot_occupied _ _ p p0 H).
    destruct (final_sequence_length q); [destruct (_ <=? _)|]; reflexivity.
Qed.

(** [AcceptInboundParcel] of a parcel the inbound queue refuses returns true and changes nothing. *)
Theorem accept_inbound_parcel_refused : forall tl sb r p,
  parcel_sequence_number p < current_sequence_number (inbound_parcels r)
  \/ (exists f, final_sequence_length (inbound_parcels r) = Some f
                /\ f <= parcel_sequence_number p)
  \/ (exists p0, nth_error (entries (inbound_parcels r))
                   (N.to_nat (parcel_sequence_number p
                              - current_sequence_number (inbound_parcels r)))
                 = Some (Some p0)) ->
  AcceptInboundParcel tl sb r p = (true, r, []).
Proof.
  intros tl sb r p H. unfold AcceptInboundParcel. rewrite (Push_refused _ _ H). reflexivity.
Qed.

(** [AcceptOutboundParcel] of a parcel the outbound queue refuses returns true and changes nothing. *)
Theorem accept_outbound_parcel_refused : forall tl sb r p,
  parcel_sequence_number p < current_sequence_number (outbound_parcels r)
  \/ (exists f, final_sequence_length (outbound_parcels r) = Some f
                /\ f <= parcel_sequence_number p)
  \/ (exists p0, nth_error (entries (outbound_parcels r))
                   (N.to_nat (parcel_sequence_number p
                              - current_sequence_number (outbound_parcels r)))
                 = Some (Some p0)) ->
  AcceptOutboundParcel tl sb r p = (true, r, []).
Proof.
  intros tl sb r p H. unfold AcceptOutboundParcel. rewrite (Push_refused _ _ H). reflexivity.
Qed.

(** On a terminal Router, a route disconnection not from the inward side terminates the inbound queue and leaves the Router dead and without a primary link. *)
Lemma AcceptRouteDisconnectedFrom_terminal_inbound : forall tl sb r lt,
  inward_edge r = None -> bridge r = None -> is_peripheral_inward lt = false ->
  let r' := snd (fst (AcceptRouteDisconnectedFrom tl sb r lt)) in
  inbound_parcels r' = ForceTerminateSequence (inbound_parcels r) /\
  is_disconnected r' = true /\ peer_closed r' = true /\ dead r' = true /\
  primary_link (outward_edge r') = None.
Proof.
  intros tl sb r lt Hi Hb Hl. unfold AcceptRouteDisconnectedFrom. rewrite Hl. simpl.
  rewrite Hi, Hb. simpl.
  match goal with |- context [Flush tl sb kDefault ?x] =>
    pose proof (Flush_outward_primary tl sb kDefault x) as G;
    pose proof (Flush_inbound_terminal tl sb kDefault x eq_refl eq_refl) as I;
    pose proof (Flush_status tl sb kDefault x) as S;
    pose proof (Flush_disconnected tl sb kDefault x) as D;
    destruct (Flush tl sb kDefault x) as [r5 e5]
  end.
  simpl in *. unfold peer_closed, dead. rewrite I, S, D.
  unfold IsSequenceFullyConsumed; simpl. rewrite N.leb_refl. simpl.
  split; [reflexivity|]. split; [reflexivity|].
  split; [rewrite lor_keeps_bit; [reflexivity|]; rewrite lor_sets_bit; [reflexivity|discriminate]|].
  split; [rewrite lor_sets_bit; [reflexivity|discriminate]|].
  destruct G as [P|P]; rewrite P; reflexivity.
Qed.

(** After a route disconnection, the Router is disconnected and has no outward primary link. *)
Lemma AcceptRouteDisconnectedFrom_strips : forall tl sb r lt,
  let r' := snd (fst (AcceptRouteDisconnectedFrom tl sb r lt)) in
  is_disconnected r' = true /\ primary_link (outward_edge r') = None.
Proof.
  intros tl sb r lt. unfold AcceptRouteDisconnectedFrom.
  match goal with |- context [match ?m with pair _ _ => _ end] =>
    destruct m as [r4 e4] eqn:E4 end.
  assert (H4 : is_disconnected r4 = true /\ primary_link (outward_edge r4) = None).
  { destruct (is_peripheral_inward lt), (inward_edge _), (bridge _);
      injection E4 as <- _; split; reflexivity. }
  match goal with |- context [Flush tl sb kDefault ?x] =>
    pose proof (Flush_outward_primary tl sb kDefault x) as G;
    pose proof (Flush_disconnected tl sb kDefault x) as D;
    destruct (Flush tl sb kDefault x) as [r5 e5]
  end.
  simpl in *. destruct H4 as [H4 H5]. rewrite D, H4. split; [reflexivity|].
  destruct G as [P|P]; rewrite P; [reflexivity|exact H5].
Qed.

(** When the outward link of a terminal Router disconnects, the Router is disconnected, sees its peer closed and is dead, has no primary link, and every later get returns [IPCZ_RESULT_NOT_FOUND] with nothing changed. *)
Theorem notify_outward_link_disconnected_kills_route : forall tl sb uiqs r link flags nb nh,
  inward_edge r = None -> bridge r = None -> is_outward (link_type link) = true ->
  let r' := fst (NotifyLinkDisconnected tl sb r link) in
  is_disconnected r' = true /\ peer_closed r' = true /\ dead r' = true /\
  primary_link (outward_edge r') = None /\
  GetNextInboundParcel uiqs r' flags nb nh = mkGetOutcome IPCZ_RESULT_NOT_FOUND nb nh [] r' [].
Proof.
  intros tl sb uiqs r link flags nb nh Hi Hb Ho r'.
  unfold r', NotifyLinkDisconnected. rewrite Ho.
  match goal with |- context [AcceptRouteDisconnectedFrom tl sb ?x kPeripheralOutward] =>
    assert (Hx : inward_edge x = None /\ bridge x = None)
      by (rewrite Hi; repeat (destruct (link_is _ _)); split; simpl; auto);
    destruct Hx as [Hxi Hxb];
    pose proof (AcceptRouteDisconnectedFrom_terminal_inbound tl sb x kPeripheralOutward
                  Hxi Hxb eq_refl) as T;
    destruct (AcceptRouteDisconnectedFrom tl sb x kPeripheralOutward) as [[b r2] eff]
  end.
  simpl in *. destruct T as (T1 & T2 & T3 & T4 & T5).
  repeat split; auto.
  unfold GetNextInboundParcel. rewrite T1. unfold IsSequenceFullyConsumed. simpl.
  rewrite N.leb_refl. reflexivity.
Qed.

(** A Router whose route was disconnected does not adopt a new outward link: it is left unchanged and tells the link that the route is disconnected, then deactivates it. *)
Theorem disconnected_route_refuses_new_link : forall tl sb r lt link,
  let r' := snd (fst (AcceptRouteDisconnectedFrom tl sb r lt)) in
  let '(r'', eff) := SetOutwardLink tl sb r' link in
  r'' = r' /\ primary_link (outward_edge r'') = None /\
  exists mark, eff = mark ++ [LinkAcceptRouteDisconnected link; LinkDeactivate link].
Proof.
  intros tl sb r lt link r'.
  destruct (AcceptRouteDisconnectedFrom_strips tl sb r lt) as [D P]. fold r' in D, P.
  unfold SetOutwardLink. rewrite D. simpl.
  split; [reflexivity|]. split; [exact P|]. eexists; reflexivity.
Qed.

(** The links and portals [Portal::CreatePair] builds. *)
Lemma CreatePair_portals : forall tl sb pa pb a b la lb,
  let '(links, p, q, _) := portal.CreatePair tl sb pa pb a b la lb in
  links = local_router_link.CreatePair kCentral (a, b) local_router_link.kStable /\
  p = portal.mkPortal pa (linked_router a (local_router_link.as_router_link links kA la))
                      false portal.NoPendingParcels /\
  q = portal.mkPortal pb (linked_router b (local_router_link.as_router_link links kB lb))
                      false portal.NoPendingParcels.
Proof.
  intros. vm_compute. auto.
Qed.

(** [Flush] keeps the Router id. *)
Lemma Flush_router_id : forall tl sb b r, router_id (fst (Flush tl sb b r)) = router_id r.
Proof. intros. unfold Flush. destruct_pairs. reflexivity. Qed.

(** On a terminal Router, an accepted inbound parcel is in the inbound queue afterwards. *)
Lemma AcceptInboundParcel_terminal_queue : forall tl sb r p q,
  inward_edge r = None -> bridge r = None ->
  Push (inbound_parcels r) (parcel_sequence_number p) p = Some q ->
  let r' := snd (fst (AcceptInboundParcel tl sb r p)) in
  router_id r' = router_id r /\ inbound_parcels r' = q.
Proof.
  intros tl sb r p q Hi Hb Hp. unfold AcceptInboundParcel. rewrite Hp, Hi.
  match goal with |- context [Flush tl sb kDefault ?x] =>
    pose proof (Flush_router_id tl sb kDefault x) as R;
    pose proof (Flush_inbound_terminal tl sb kDefault x Hi Hb) as I;
    destruct (Flush tl sb kDefault x) as [r3 e3]
  end.
  simpl in *. split; assumption.
Qed.

(** A get of exactly the size of the next parcel returns its data. *)
Lemma GetNextInboundParcel_whole : forall uiqs r p,
  IsSequenceFullyConsumed (inbound_parcels r) = false ->
  NextElement (inbound_parcels r) = Some p ->
  let o := GetNextInboundParcel uiqs r 0%Z (Some (data_size p)) (Some (parcel_num_objects p)) in
  get_result o = IPCZ_RESULT_OK /\ out_data o = parcel_data p.
Proof.
  intros uiqs r p Hc Hn. unfold GetNextInboundParcel. rewrite Hc, Hn. simpl.
  rewrite !N.leb_refl. simpl.
  destruct_pairs. simpl. split; [reflexivity|].
  unfold data_size. rewrite Nat2N.id. apply firstn_all.
Qed.

(** A parcel put on one portal of a fresh pair is handed to the local link, and once delivered to the other portal a get of its size returns the same data. *)
Theorem pair_put_then_get : forall tl sb gpcb fh uiqs pa pb a b la lb data,
  let '(links, p, q, _) := portal.CreatePair tl sb pa pb a b la lb in
  let '(res, _, eff) := portal.Put tl sb gpcb fh p data [] None in
  res = IPCZ_RESULT_OK /\
  eff = [LinkAcceptParcel (local_router_link.as_router_link links kA la) (mkParcel 0 data 0)] /\
  let '(rs, _) := local_router_link.AcceptParcel tl sb links kA [portal.router q]
                    (mkParcel 0 data 0) in
  exists rb, rs = [rb] /\
  let o := fst (portal.Get uiqs (portal.set_router q rb) 0%Z
                           (Some (N.of_nat (length data))) (Some 0)) in
  get_result o = IPCZ_RESULT_OK /\ out_data o = data.
Proof.
  intros.
  pose proof (CreatePair_portals tl sb pa pb a b la lb) as C.
  destruct (portal.CreatePair tl sb pa pb a b la lb) as [[[links p] q] e].
  destruct C as (-> & -> & ->).
  simpl. split; [reflexivity|]. split; [reflexivity|].
  unfold local_router_link.AcceptParcel, local_router_link.with_receiver. simpl.
  rewrite N.eqb_refl.
  match goal with |- context [AcceptInboundParcel tl sb ?r ?p] =>
    pose proof (AcceptInboundParcel_terminal_queue tl sb r p (mkParcelQueue 0 [Some p] None)
                  eq_refl eq_refl eq_refl) as A;
    destruct (AcceptInboundParcel tl sb r p) as [[ok r'] eff]
  end.
  simpl in A. destruct A as [A1 A2]. rewrite <- A1, N.eqb_refl.
  exists r'. split; [reflexivity|].
  exact (GetNextInboundParcel_whole uiqs r' (mkParcel 0 data 0)
           ltac:(rewrite A2; reflexivity) ltac:(rewrite A2; reflexivity)).
Qed.

(** [forallb] is false when one element fails. *)
Lemma forallb_In_false : forall {A} (f : A -> bool) l x,
  In x l -> f x = false -> forallb f l = false.
Proof.
  intros A f l x Hin Hf. induction l as [|y l IH]; [destruct Hin|].
  destruct Hin as [->|Hin]; simpl; [rewrite Hf; reflexivity|].
  rewrite (IH Hin). apply andb_false_r.
Qed.

(** A put on either portal of a fresh pair that sends one of the two portals is refused with [IPCZ_RESULT_INVALID_ARGUMENT] and changes nothing. *)
Theorem put_rejects_own_pair : forall tl sb gpcb fh pa pb a b la lb h data handles limits,
  let '(_, p, q, _) := portal.CreatePair tl sb pa pb a b la lb in
  In h handles ->
  fh h = Some (portal.PortalObject p) \/ fh h = Some (portal.PortalObject q) ->
  portal.Put tl sb gpcb fh p data handles limits = (IPCZ_RESULT_INVALID_ARGUMENT, p, []) /\
  portal.Put tl sb gpcb fh q data handles limits = (IPCZ_RESULT_INVALID_ARGUMENT, q, []).
Proof.
  intros.
  pose proof (CreatePair_portals tl sb pa pb a b la lb) as C.
  destruct (portal.CreatePair tl sb pa pb a b la lb) as [[[links p] q] e].
  destruct C as (-> & -> & ->). intros Hin Hfh.
  unfold portal.Put, portal.ValidateAndAcquireObjectsForTransitFrom.
  rewrite !(forallb_In_false _ handles h Hin); [split; reflexivity| |];
    destruct Hfh as [-> | ->]; unfold portal.CanSendFrom, HasLocalPeer, GetLocalPeer; simpl;
    rewrite N.eqb_refl; simpl; try reflexivity; apply andb_false_r.
Qed.

(** Closing one portal of a fresh pair (when the lock for closure is obtained) succeeds and tells the local link; delivered to the other portal, the closure leaves it dead and seeing its peer closed, and both its puts and gets then return [IPCZ_RESULT_NOT_FOUND]. *)
Theorem pair_close_reaches_peer : forall tl sb gpcb fh uiqs pa pb a b la lb data,
  let '(links, p, q, _) := portal.CreatePair tl sb pa pb a b la lb in
  tl (local_router_link.as_router_link links kA la) = true ->
  let '(res, _, eff) := portal.Close tl sb p in
  res = IPCZ_RESULT_OK /\
  In (LinkAcceptRouteClosure (local_router_link.as_router_link links kA la) 0) eff /\
  let '(rs, _) := local_router_link.AcceptRouteClosure tl sb links kA [portal.router q] 0 in
  exists rb, rs = [rb] /\ peer_closed rb = true /\ dead rb = true /\
  fst (fst (portal.Put tl sb gpcb fh (portal.set_router q rb) data [] None))
    = IPCZ_RESULT_NOT_FOUND /\
  get_result (fst (portal.Get uiqs (portal.set_router q rb) 0%Z None None))
    = IPCZ_RESULT_NOT_FOUND.
Proof.
  intros.
  pose proof (CreatePair_portals tl sb pa pb a b la lb) as C.
  destruct (portal.CreatePair tl sb pa pb a b la lb) as [[[links p] q] e].
  destruct C as (-> & -> & ->). intros Ht.
  vm_compute in Ht.
  destruct (portal.Close tl sb _) as [[res p'] eff] eqn:Cl.
  vm_compute in Cl. rewrite Ht in Cl. vm_compute in Cl.
  injection Cl as <- _ <-.
  split; [reflexivity|]. split; [simpl; tauto|].
  unfold local_router_link.AcceptRouteClosure, local_router_link.with_receiver. simpl.
  rewrite N.eqb_refl.
  match goal with |- context [AcceptRouteClosureFrom tl sb ?r ?t ?n] =>
    destruct (AcceptRouteClosureFrom tl sb r t n) as [[ok rb] eff'] eqn:A
  end.
  vm_compute in A. injection A as _ <- _. simpl. rewrite N.eqb_refl.
  eexists. split; [reflexivity|]. vm_compute. repeat split.
Qed.

(** After one side of a LocalRouterLink is deactivated, the other side has no local peer and everything it delivers is dropped, while this side keeps its peer. *)
Theorem deactivated_side_unreachable : forall tl sb st side rs p n,
  let st' := local_router_link.Deactivate st side in
  local_router_link.GetLocalPeer st' (local_router_link.opposite side) = None /\
  local_router_link.GetLocalPeer st' side = local_router_link.GetLocalPeer st side /\
  local_router_link.AcceptParcel tl sb st' (local_router_link.opposite side) rs p = (rs, []) /\
  local_router_link.AcceptRouteClosure tl sb st' (local_router_link.opposite side) rs n
    = (rs, []) /\
  local_router_link.AcceptRouteDisconnected tl sb st' (local_router_link.opposite side) rs
    = (rs, []).
Proof. intros. destruct side; repeat split. Qed.

(** Lookup after erase in the sublink table. *)
Lemma find_erase : forall m s s',
  node_link.find (node_link.erase m s) s' = if s' =? s then None else node_link.find m s'.
Proof.
  induction m as [|[k v] t IH]; intros s s'; simpl.
  - destruct (s' =? s); reflexivity.
  - destruct (k =? s) eqn:K; simpl.
    + rewrite IH. apply N.eqb_eq in K as ->.
      destruct (s' =? s) eqn:S'; [reflexivity|].
      rewrite N.eqb_sym, S'. reflexivity.
    + rewrite IH. destruct (k =? s') eqn:K'; [|reflexivity].
      apply N.eqb_eq in K' as ->. rewrite K. reflexivity.
Qed.

(** [NodeLink::AddRemoteRouterLink] returns a new link only for an unused sublink, and afterwards the sublink maps to the existing entry or to the new one while every other sublink is unchanged. *)
Theorem add_remote_router_link_lookup : forall nl s type router s',
  let '(l, nl') := node_link.AddRemoteRouterLink nl s type router in
  l = match node_link.GetSublink nl s with
      | Some _ => None
      | None => Some (mkRouterLink s type None)
      end /\
  node_link.GetSublink nl' s'
  = if s' =? s then
      match node_link.GetSublink nl s with
      | Some old => Some old
      | None => Some (node_link.mkSublink (mkRouterLink s type None) router)
      end
    else node_link.GetSublink nl s'.
Proof.
  intros. unfold node_link.AddRemoteRouterLink, node_link.GetSublink.
  destruct (node_link.find (node_link.sublinks_ nl) s) as [old|] eqn:F; simpl;
    (split; [reflexivity|]).
  - destruct (s' =? s) eqn:S; [apply N.eqb_eq in S as ->; exact F|reflexivity].
  - rewrite N.eqb_sym. destruct (s' =? s); reflexivity.
Qed.

(** After [RemoteRouterLink::Deactivate], a RouteClosed message for its sublink is accepted and ignored; other sublinks behave as before. *)
Theorem deactivated_sublink_ignores_route_closed : forall tl sb nl link s n,
  node_link.OnRouteClosed tl sb (remote_router_link.Deactivate nl link) s n
  = if s =? link_id link then (true, None, []) else node_link.OnRouteClosed tl sb nl s n.
Proof.
  intros. unfold node_link.OnRouteClosed, remote_router_link.Deactivate,
    node_link.RemoveRemoteRouterLink, node_link.GetSublink. simpl.
  rewrite find_erase. destruct (s =? link_id link); reflexivity.
Qed.

(** [NodeLink::Deactivate] clears the sublinks, and a second call does nothing more: the transport is deactivated once, and only if the link was active. *)
Theorem node_link_deactivate_twice : forall nl,
  let '(nl1, c1) := node_link.Deactivate nl in
  let '(nl2, c2) := node_link.Deactivate nl1 in
  node_link.sublinks_ nl1 = [] /\ node_link.sublinks_ nl2 = [] /\
  node_link.active_ nl2 = false /\
  c1 ++ c2 = if node_link.active_ nl then [node_link.TransportDeactivate] else [].
Proof. intros [m [|] g]; simpl; repeat split. Qed.

(** Messages transmitted one after the other on a NodeLink carry consecutive sequence numbers (modulo 2^64) starting at the generator, which ends advanced by the number of messages. *)
Theorem transmit_all_stamps_consecutive : forall ctt nl ms,
  node_link.next_outgoing_sequence_number_generator_ nl < 2 ^ 64 ->
  forallb ctt ms = true ->
  let g := node_link.next_outgoing_sequence_number_generator_ nl in
  let '(nl', calls) := node_link.transmit_all ctt nl ms in
  nl' = node_link.mkNodeLinkState (node_link.sublinks_ nl) (node_link.active_ nl)
          ((g + N.of_nat (length ms)) mod 2 ^ 64) /\
  length calls = length ms /\
  forall i m, nth_error ms i = Some m ->
    nth_error calls i
    = Some (node_link.TransportTransmit
              (node_link.mkMessage ((g + N.of_nat i) mod 2 ^ 64) (node_link.params m))).
Proof.
  intros ctt nl ms. unfold node_link.Transmit, node_link.GenerateOutgoingSequenceNumber.
  assert (M0 : 2 ^ 64 <> 0) by discriminate.
  revert nl.
  induction ms as [|m ms IH]; intros nl Hg Hc; cbv zeta; simpl.
  - destruct nl as [s a g0]; simpl in *. rewrite N.add_0_r, N.mod_small by exact Hg.
    split; [reflexivity|]. split; [reflexivity|]. intros [|i] m H; discriminate.
  - simpl in Hc. apply andb_true_iff in Hc as [Hm Hc].
    unfold node_link.Transmit, node_link.GenerateOutgoingSequenceNumber in *.
    rewrite Hm. simpl.
    match goal with |- context [node_link.transmit_all ctt ?x ms] =>
      assert (Hg1 : node_link.next_outgoing_sequence_number_generator_ x < 2 ^ 64)
        by (apply N.mod_upper_bound; exact M0);
      specialize (IH x Hg1 Hc); cbv zeta in IH;
      destruct (node_link.transmit_all ctt x ms) as [nl2 c2]
    end.
    simpl in IH. destruct IH as (E & L & Nth). split; [|split].
    + rewrite E. f_equal.
      rewrite N.Div0.add_mod_idemp_l. f_equal. lia.
    + simpl. rewrite L. reflexivity.
    + intros [|i] m' H; simpl in H.
      * injection H as <-. simpl. rewrite N.add_0_r, N.mod_small by exact Hg.
        reflexivity.
      * simpl. rewrite (Nth i m' H). simpl.
        rewrite N.Div0.add_mod_idemp_l. do 4 f_equal. lia.
Qed.

(** [bit_ceil] lies between its argument and twice it. *)
Lemma bit_ceil_bounds : forall x, 2 <= x ->
  x <= 2 ^ N.size (x - 1) /\ 2 ^ N.size (x - 1) < 2 * x.
Proof.
  intros x Hx. set (y := x - 1).
  assert (Hy : 0 < y) by (unfold y; lia).
  rewrite N.size_log2 by lia.
  destruct (N.log2_spec y Hy) as [L U].
  rewrite N.pow_succ_r' in *. assert (Ey : y = x - 1) by reflexivity. split; lia.
Qed.

(** [bit_ceil] of a number below a power of two is below it. *)
Lemma bit_ceil_le_pow : forall x k, 2 <= x -> x <= 2 ^ k -> 2 ^ N.size (x - 1) <= 2 ^ k.
Proof.
  intros x k Hx Hk. apply N.pow_le_mono_r; [discriminate|].
  rewrite N.size_log2 by lia.
  destruct (N.eq_dec k 0) as [->|K]; [simpl in Hk; lia|].
  assert (N.log2 (x - 1) < k); [|lia].
  apply N.log2_lt_pow2; lia.
Qed.

(** The block size for a fragment size is a power of two in [64, 16384], at least the size, and below twice it unless it is 64. *)
Lemma block_size_spec : forall size, 1 <= size <= 16384 ->
  let bs := node_link_memory.GetBlockSizeForFragmentSize size in
  (exists k, bs = 2 ^ k) /\ size <= bs /\ 64 <= bs <= 16384 /\ (bs = 64 \/ bs < 2 * size).
Proof.
  intros size Hs bs. unfold bs, node_link_memory.GetBlockSizeForFragmentSize,
    node_link_memory.bit_ceil, node_link_memory.kMinFragmentSize.
  destruct (size <=? 1) eqn:S1.
  - apply N.leb_le in S1. rewrite N.max_l by lia.
    split; [exists 6; reflexivity|]. lia.
  - apply N.leb_gt in S1.
    destruct (bit_ceil_bounds size ltac:(lia)) as [L U].
    assert (Le : 2 ^ N.size (size - 1) <= 2 ^ 14)
      by (apply bit_ceil_le_pow; simpl; lia).
    change (2 ^ 14) with 16384 in Le.
    destruct (N.le_ge_cases (2 ^ N.size (size - 1)) 64) as [C|C].
    + rewrite N.max_l by exact C. split; [exists 6; reflexivity|]. lia.
    + rewrite N.max_r by exact C. split; [eexists; reflexivity|]. lia.
Qed.

(** [NodeLinkMemory::AllocateFragment] returns nothing for size 0 or sizes above 16384; otherwise it first asks the pool for a block of a power of two size in [64, 16384], at least the size, and below twice it unless it is 64. *)
Theorem allocate_fragment_block_size : forall ab gtbc mem size,
  let '(f, mem', calls) := node_link_memory.AllocateFragment ab gtbc mem size in
  if (size =? 0) || (node_link_memory.kMaxFragmentSizeForBlockAllocation <? size)
  then f = None /\ mem' = mem /\ calls = []
  else exists k, hd_error calls = Some (node_link_memory.PoolAllocateBlock (2 ^ k)) /\
       size <= 2 ^ k /\ 64 <= 2 ^ k <= 16384 /\ (2 ^ k = 64 \/ 2 ^ k < 2 * size).
Proof.
  intros. unfold node_link_memory.AllocateFragment.
  destruct ((size =? 0) || (node_link_memory.kMaxFragmentSizeForBlockAllocation <? size))
    eqn:C; [repeat split|].
  apply orb_false_iff in C as [C1 C2]. apply N.eqb_neq in C1. apply N.ltb_ge in C2.
  destruct (block_size_spec size ltac:(unfold node_link_memory.kMaxFragmentSizeForBlockAllocation in C2; lia))
    as ([k Hk] & B).
  rewrite Hk in B |- *.
  destruct (ab (2 ^ k)); [exists k; split; [reflexivity|exact B]|].
  destruct (node_link_memory.CanExpandBlockCapacity gtbc (2 ^ k));
    [destruct (node_link_memory.RequestBlockCapacity _ _ _)|]; exists k; split; solve [reflexivity|exact B].
Qed.

(** The buffer requested for block capacity is a whole number of 64 KB pages, holds at least eight blocks, and is less than a page more than that. *)
Theorem capacity_buffer_size_bounds : forall block_size,
  block_size <= 2 ^ 60 ->
  let n := node_link_memory.capacity_buffer_size block_size in
  n mod node_link_memory.kBlockAllocatorPageSize = 0 /\
  node_link_memory.kMinBlockAllocatorCapacity * block_size <= n /\
  n < node_link_memory.kMinBlockAllocatorCapacity * block_size
      + node_link_memory.kBlockAllocatorPageSize.
Proof.
  intros bs Hb n. unfold n, node_link_memory.capacity_buffer_size, node_link_memory.wrap64,
    node_link_memory.kBlockAllocatorPageSize, node_link_memory.kMinBlockAllocatorCapacity.
  change (2 ^ 60) with 1152921504606846976 in Hb.
  change (2 ^ 64) with 18446744073709551616.
  change (64 * 1024) with 65536.
  rewrite (N.mod_small (bs * 8)) by lia.
  rewrite (N.mod_small (bs * 8 + 65536 - 1)) by lia.
  pose proof (N.div_mod (bs * 8 + 65536 - 1) 65536 ltac:(discriminate)) as D.
  pose proof (N.mod_upper_bound (bs * 8 + 65536 - 1) 65536 ltac:(discriminate)) as U.
  set (q := (bs * 8 + 65536 - 1) / 65536) in *.
  set (r := (bs * 8 + 65536 - 1) mod 65536) in *.
  assert (Q : q * 65536 < 18446744073709551616) by lia. rewrite (N.mod_small (q * 65536)) by exact Q.
  split; [apply N.Div0.mod_mul|]. lia.
Qed.

(** Lookup after erase in the pending capacity requests. *)
Lemma find_erase_callbacks : forall m s s',
  node_link_memory.find_callbacks (node_link_memory.erase_callbacks m s) s'
  = if s' =? s then None else node_link_memory.find_callbacks m s'.
Proof.
  induction m as [|[k v] t IH]; intros s s'; simpl.
  - destruct (s' =? s); reflexivity.
  - destruct (k =? s) eqn:K; simpl.
    + rewrite IH. apply N.eqb_eq in K as ->.
      destruct (s' =? s) eqn:S'; [reflexivity|].
      rewrite N.eqb_sym, S'. reflexivity.
    + rewrite IH. destruct (k =? s') eqn:K'; [|reflexivity].
      apply N.eqb_eq in K' as ->. rewrite K. reflexivity.
Qed.

(** Erasing an absent block size changes nothing. *)
Lemma erase_callbacks_absent : forall m s,
  node_link_memory.find_callbacks m s = None -> node_link_memory.erase_callbacks m s = m.
Proof.
  induction m as [|[k v] t IH]; intros s H; simpl in *; [reflexivity|].
  destruct (k =? s); [discriminate|]. simpl. f_equal. apply IH, H.
Qed.

(** Further requests for a block size already being requested are only queued. *)
Lemma request_all_pending : forall cs id sid bs xs m,
  node_link_memory.find_callbacks m bs = None ->
  request_all (node_link_memory.mkNodeLinkMemoryState id sid ((bs, xs) :: m)) bs cs
  = (node_link_memory.mkNodeLinkMemoryState id sid ((bs, xs ++ cs) :: m), []).
Proof.
  induction cs as [|c cs IH]; intros id sid bs xs m H; simpl.
  - rewrite app_nil_r. reflexivity.
  - unfold node_link_memory.RequestBlockCapacity. simpl. rewrite N.eqb_refl. simpl.
    rewrite erase_callbacks_absent by exact H.
    rewrite IH by exact H. rewrite <- app_assoc. reflexivity.
Qed.

(** Concurrent capacity requests for one block size allocate shared memory once; when it arrives, every callback runs in order (after the buffer is added, if valid), the pending requests are back as before, and a repeated completion does nothing. *)
Theorem request_block_capacity_once : forall mem bs c cs valid,
  node_link_memory.find_callbacks (node_link_memory.capacity_callbacks_ mem) bs = None ->
  let '(mem1, calls1) := request_all mem bs (c :: cs) in
  calls1 = [node_link_memory.NodeAllocateSharedMemory
              (node_link_memory.capacity_buffer_size bs) bs] /\
  let '(mem2, calls2) := node_link_memory.CapacityAllocated mem1 bs valid in
  calls2 = (if valid
            then [node_link_memory.LinkAddBlockBuffer (node_link_memory.next_buffer_id mem) bs;
                  node_link_memory.PoolAddBlockBuffer (node_link_memory.next_buffer_id mem) bs]
            else [])
           ++ map (fun c' => node_link_memory.RunCapacityCallback c' valid) (c :: cs) /\
  node_link_memory.capacity_callbacks_ mem2 = node_link_memory.capacity_callbacks_ mem /\
  node_link_memory.OnCapacityRequestComplete mem2 bs valid = (mem2, []).
Proof.
  intros [id sid m] bs c cs valid H. simpl in H.
  simpl. unfold node_link_memory.RequestBlockCapacity at 1. simpl. rewrite H.
  rewrite request_all_pending by exact H. simpl.
  split; [reflexivity|].
  unfold node_link_memory.CapacityAllocated, node_link_memory.OnCapacityRequestComplete,
    node_link_memory.erase_callbacks.
  destruct valid; simpl; rewrite N.eqb_refl; simpl;
    fold (node_link_memory.erase_callbacks m bs); rewrite erase_callbacks_absent by exact H;
    rewrite H; repeat split.
Qed.

(** [SerializeNewRouter] records the given sublink. *)
Lemma SerializeNewRouter_sublink : forall r nl s,
  let '(d, _, nl', _) := SerializeNewRouter r nl s in
  new_sublink d = s /\ nl' = snd (AddRemoteRouterLink nl s kPeripheralInward).
Proof.
  intros. unfold SerializeNewRouter.
  destruct (peer_closed r); destruct (AddRemoteRouterLink nl s kPeripheralInward); split; reflexivity.
Qed.

(** A number above every element of a list is not in it. *)
Lemma existsb_below : forall x l, Forall (fun s => s < x) l -> existsb (N.eqb x) l = false.
Proof.
  intros x l H. induction H as [|s l Hs _ IH]; simpl; [reflexivity|].
  rewrite IH. destruct (N.eqb_spec x s); [lia|reflexivity].
Qed.

(** Two Routers serialized one after the other with sublink ids from [AllocateSublinkIds] get distinct sublinks, both recorded on the NodeLink. *)
Theorem serialized_routers_get_distinct_sublinks : forall mem nl r1 r2,
  node_link_memory.next_sublink_id mem + 2 <= 2 ^ 64 ->
  Forall (fun s => s < node_link_memory.next_sublink_id mem) (sublinks nl) ->
  let '(s1, mem1) := node_link_memory.AllocateSublinkIds mem 1 in
  let '(d1, _, nl1, _) := SerializeNewRouter r1 nl s1 in
  let '(s2, _) := node_link_memory.AllocateSublinkIds mem1 1 in
  let '(d2, _, nl2, _) := SerializeNewRouter r2 nl1 s2 in
  new_sublink d1 <> new_sublink d2 /\ sublinks nl2 = s2 :: s1 :: sublinks nl.
Proof.
  intros mem nl r1 r2 Hn Hall.
  unfold node_link_memory.AllocateSublinkIds. simpl.
  set (s1 := node_link_memory.next_sublink_id mem) in *.
  pose proof (SerializeNewRouter_sublink r1 nl s1) as S1.
  destruct (SerializeNewRouter r1 nl s1) as [[[d1 r1'] nl1] e1].
  destruct S1 as [D1 N1].
  unfold node_link_memory.wrap64. rewrite N.mod_small by lia.
  pose proof (SerializeNewRouter_sublink r2 nl1 (s1 + 1)) as S2.
  destruct (SerializeNewRouter r2 nl1 (s1 + 1)) as [[[d2 r2'] nl2] e2].
  destruct S2 as [D2 N2].
  rewrite D1, D2. split; [lia|].
  rewrite N2, N1. unfold AddRemoteRouterLink.
  assert (E1 : existsb (N.eqb s1) (sublinks nl) = false) by (apply existsb_below; exact Hall).
  assert (E2 : existsb (N.eqb (s1 + 1)) (s1 :: sublinks nl) = false).
  { apply existsb_below. constructor; [lia|].
    eapply Forall_impl; [|exact Hall]. simpl. intros; lia. }
  rewrite E1. cbn [snd sublinks]. rewrite E2. reflexivity.
Qed.

(** On a portal without pending puts, [AbortPut] of the key a successful [BeginPut] returned restores the portal, and a second [AbortPut] fails with [IPCZ_RESULT_INVALID_ARGUMENT]. *)
Theorem begin_put_then_abort_put : forall gpcb apd p allow_partial limits n p1 n' key,
  portal.pending_parcels_ p = portal.NoPendingParcels ->
  portal.BeginPut gpcb apd p allow_partial limits n = (IPCZ_RESULT_OK, p1, n', Some key) ->
  portal.AbortPut p1 key = (IPCZ_RESULT_OK, p) /\
  fst (portal.AbortPut p key) = IPCZ_RESULT_INVALID_ARGUMENT.
Proof.
  intros gpcb apd [id r t pp] ap limits n p1 n' key Hp H. simpl in Hp. subst pp.
  unfold portal.BeginPut in H. simpl in H.
  destruct (match limits with Some l => _ | None => _ end) as [n1 ex].
  destruct ex; [discriminate|].
  destruct (peer_closed r); [discriminate|].
  destruct (apd _ _ _) as [data size].
  injection H as <- _ <-. unfold portal.AbortPut. simpl. rewrite N.eqb_refl.
  split; reflexivity.
Qed.

(** An erased key is absent from the pending parcels. *)
Lemma find_erase_pending : forall m key,
  portal.find_pending (portal.erase_pending m key) key = None.
Proof.
  induction m as [|[k s] t IH]; intros key; simpl; [reflexivity|].
  destruct (k =? key) eqn:K; simpl; [apply IH|]. rewrite K. apply IH.
Qed.

(** After a [CommitPut] that does not fail with [IPCZ_RESULT_INVALID_ARGUMENT], its key is no longer pending: aborting or committing it again fails with [IPCZ_RESULT_INVALID_ARGUMENT]. *)
Theorem pending_put_taken_once : forall tl sb fh p key produced buffer handles res p1 eff,
  portal.CommitPut tl sb fh p key produced buffer handles = (res, p1, eff) ->
  res <> IPCZ_RESULT_INVALID_ARGUMENT ->
  fst (portal.AbortPut p1 key) = IPCZ_RESULT_INVALID_ARGUMENT /\
  forall produced' buffer' handles',
    fst (fst (portal.CommitPut tl sb fh p1 key produced' buffer' handles'))
    = IPCZ_RESULT_INVALID_ARGUMENT.
Proof.
  intros tl sb fh p key produced buffer handles res p1 eff H Hres.
  unfold portal.CommitPut in H.
  destruct (negb _); [injection H as <- _ _; contradiction|].
  assert (Fin : forall pending,
    (pending = portal.NoPendingParcels
     \/ exists m, pending = portal.PendingParcelMap (portal.erase_pending m key)) ->
    (let '(result, _, r', eff) := SendOutboundParcel tl sb (portal.router p)
                                    (mkParcel 0 (firstn (N.to_nat produced) buffer)
                                              (N.of_nat (length handles))) in
     (result, portal.set_router (portal.set_pending_parcels p pending) r', eff))
    = (res, p1, eff) ->
    fst (portal.AbortPut p1 key) = IPCZ_RESULT_INVALID_ARGUMENT /\
    forall produced' buffer' handles',
      fst (fst (portal.CommitPut tl sb fh p1 key produced' buffer' handles'))
      = IPCZ_RESULT_INVALID_ARGUMENT).
  { intros pending P E.
    destruct (SendOutboundParcel _ _ _ _) as [[[r0 pc] r'] e'].
    injection E as _ <- _.
    unfold portal.AbortPut, portal.CommitPut. simpl.
    destruct P as [->|[m ->]]; simpl; [|rewrite find_erase_pending];
      (split; [reflexivity|]); intros; destruct (negb _); reflexivity. }
  destruct (portal.pending_parcels_ p) as [|k s|m].
  - injection H as <- _ _; contradiction.
  - destruct (negb (k =? key) || (s <? produced)); [injection H as <- _ _; contradiction|].
    exact (Fin _ (or_introl eq_refl) H).
  - destruct (portal.find_pending m key); [|injection H as <- _ _; contradiction].
    destruct (_ <? produced); [injection H as <- _ _; contradiction|].
    exact (Fin _ (or_intror (ex_intro _ m eq_refl)) H).
Qed.

(** The hypotheses of [partial_commit_keeps_rest] hold on a concrete input. *)
Lemma partial_commit_keeps_rest_witness :
  inward_edge router_with_parcel = None /\
  NextElement (inbound_parcels router_with_parcel) = Some hello /\
  (let '(res, r', _) := CommitGetNextIncomingParcel no_inbound_update router_with_parcel 1 0 in
  res = IPCZ_RESULT_OK /\
  current_sequence_number (inbound_parcels r')
    = current_sequence_number (inbound_parcels router_with_parcel) /\
  (exists p', NextElement (inbound_parcels r') = Some p' /\
     parcel_sequence_number p' = parcel_sequence_number hello /\
     parcel_data p' = skipn (N.to_nat 1) (parcel_data hello) /\
     parcel_num_objects p' = parcel_num_objects hello - 0) /\
  num_local_parcels (status r') = GetNumAvailableElements (inbound_parcels router_with_parcel) /\
  num_local_bytes (status r')
    = GetTotalAvailableElementSize (inbound_parcels router_with_parcel) - 1).
Proof.
  assert (H1 : inward_edge router_with_parcel = None) by reflexivity.
  assert (H2 : NextElement (inbound_parcels router_with_parcel) = Some hello) by reflexivity.
  split; [exact H1|]. split; [exact H2|].
  exact (partial_commit_keeps_rest no_inbound_update router_with_parcel hello 1 0 H1 H2
           ltac:(vm_compute; discriminate) ltac:(vm_compute; discriminate)
           ltac:(left; vm_compute; reflexivity)).
Defined.

(** The hypotheses of [accept_inbound_parcel_refused] hold on a concrete input. *)
Lemma accept_inbound_parcel_refused_witness :
  nth_error (entries (inbound_parcels router_with_parcel)) 0 = Some (Some hello) /\
  AcceptInboundParcel no_lock no_self_bypass router_with_parcel hello
  = (true, router_with_parcel, []).
Proof.
  split; [reflexivity|].
  apply accept_inbound_parcel_refused. right. right. exists hello. reflexivity.
Defined.

(** The hypotheses of [accept_outbound_parcel_refused] hold on a concrete input. *)
Lemma accept_outbound_parcel_refused_witness :
  final_sequence_length (outbound_parcels closing_router) = Some 1 /\
  AcceptOutboundParcel no_lock no_self_bypass closing_router
    (mkParcel 1 (parcel_data hello) 0) = (true, closing_router, []).
Proof.
  split; [reflexivity|].
  apply accept_outbound_parcel_refused. right. left. exists 1. split; reflexivity.
Defined.

(** The hypotheses of [notify_outward_link_disconnected_kills_route] hold on a concrete input. *)
Lemma notify_outward_link_disconnected_kills_route_witness :
  inward_edge extended_router = None /\ bridge extended_router = None /\
  is_outward (link_type peripheral_link) = true /\
  let r' := fst (NotifyLinkDisconnected no_lock no_self_bypass extended_router peripheral_link) in
  is_disconnected r' = true /\ peer_closed r' = true /\ dead r' = true /\
  primary_link (outward_edge r') = None /\
  GetNextInboundParcel no_inbound_update r' 0%Z None None
  = mkGetOutcome IPCZ_RESULT_NOT_FOUND None None [] r' [].
Proof.
  assert (H1 : inward_edge extended_router = None) by reflexivity.
  assert (H2 : bridge extended_router = None) by reflexivity.
  assert (H3 : is_outward (link_type peripheral_link) = true) by reflexivity.
  split; [exact H1|]. split; [exact H2|]. split; [exact H3|].
  exact (notify_outward_link_disconnected_kills_route no_lock no_self_bypass no_inbound_update
           extended_router peripheral_link 0%Z None None H1 H2 H3).
Defined.

(** The hypotheses of [put_rejects_own_pair] hold on a concrete input. *)
Lemma put_rejects_own_pair_witness :
  fst (portal.CreatePair no_lock no_self_bypass 1 2 10 11 20 21) = (pair_links, pair_a, pair_b) /\
  In 1 [1] /\ pair_a_handle 1 = Some (portal.PortalObject pair_a) /\
  portal.Put no_lock no_self_bypass no_link_capacity pair_a_handle pair_a [] [1] None
    = (IPCZ_RESULT_INVALID_ARGUMENT, pair_a, []) /\
  portal.Put no_lock no_self_bypass no_link_capacity pair_a_handle pair_b [] [1] None
    = (IPCZ_RESULT_INVALID_ARGUMENT, pair_b, []).
Proof.
  assert (E : portal.CreatePair no_lock no_self_bypass 1 2 10 11 20 21
              = (pair_links, pair_a, pair_b,
                 snd (portal.CreatePair no_lock no_self_bypass 1 2 10 11 20 21)))
    by (vm_compute; reflexivity).
  pose proof (put_rejects_own_pair no_lock no_self_bypass no_link_capacity pair_a_handle
                1 2 10 11 20 21 1 [] [1] None) as T.
  rewrite E in T.
  split; [rewrite E; reflexivity|]. split; [left; reflexivity|]. split; [reflexivity|].
  exact (T (or_introl eq_refl) (or_introl eq_refl)).
Defined.

(** The hypotheses of [pair_close_reaches_peer] hold on a concrete input. *)
Lemma pair_close_reaches_peer_witness :
  fst (portal.CreatePair always_lock no_self_bypass 1 2 10 11 20 21) = (pair_links, pair_a, pair_b) /\
  always_lock (local_router_link.as_router_link pair_links kA 20) = true /\
  let '(res, _, eff) := portal.Close always_lock no_self_bypass pair_a in
  res = IPCZ_RESULT_OK /\
  In (LinkAcceptRouteClosure (local_router_link.as_router_link pair_links kA 20) 0) eff /\
  let '(rs, _) := local_router_link.AcceptRouteClosure always_lock no_self_bypass pair_links kA
                    [portal.router pair_b] 0 in
  exists rb, rs = [rb] /\ peer_closed rb = true /\ dead rb = true /\
  fst (fst (portal.Put always_lock no_self_bypass no_link_capacity no_objects
                       (portal.set_router pair_b rb) (parcel_data hello) [] None))
    = IPCZ_RESULT_NOT_FOUND /\
  get_result (fst (portal.Get no_inbound_update (portal.set_router pair_b rb) 0%Z None None))
    = IPCZ_RESULT_NOT_FOUND.
Proof.
  assert (E : portal.CreatePair always_lock no_self_bypass 1 2 10 11 20 21
              = (pair_links, pair_a, pair_b,
                 snd (portal.CreatePair always_lock no_self_bypass 1 2 10 11 20 21)))
    by (vm_compute; reflexivity).
  pose proof (pair_close_reaches_peer always_lock no_self_bypass no_link_capacity no_objects
                no_inbound_update 1 2 10 11 20 21 (parcel_data hello)) as T.
  rewrite E in T.
  split; [rewrite E; reflexivity|]. split; [reflexivity|].
  exact (T eq_refl).
Defined.

(** The hypotheses of [transmit_all_stamps_consecutive] hold on a concrete input. *)
Lemma transmit_all_stamps_consecutive_witness :
  node_link.next_outgoing_sequence_number_generator_ wrapping_node_link < 2 ^ 64 /\
  forallb transmit_any two_messages = true /\
  let g := node_link.next_outgoing_sequence_number_generator_ wrapping_node_link in
  let '(nl', calls) := node_link.transmit_all transmit_any wrapping_node_link two_messages in
  nl' = node_link.mkNodeLinkState [] true ((g + 2) mod 2 ^ 64) /\
  length calls = 2%nat /\
  forall i m, nth_error two_messages i = Some m ->
    nth_error calls i
    = Some (node_link.TransportTransmit
              (node_link.mkMessage ((g + N.of_nat i) mod 2 ^ 64) (node_link.params m))).
Proof.
  assert (H1 : node_link.next_outgoing_sequence_number_generator_ wrapping_node_link < 2 ^ 64)
    by (vm_compute; reflexivity).
  assert (H2 : forallb transmit_any two_messages = true) by reflexivity.
  split; [exact H1|]. split; [exact H2|].
  exact (transmit_all_stamps_consecutive transmit_any wrapping_node_link two_messages H1 H2).
Defined.

(** The hypotheses of [capacity_buffer_size_bounds] hold on a concrete input. *)
Lemma capacity_buffer_size_bounds_witness :
  64 <= 2 ^ 60 /\
  node_link_memory.capacity_buffer_size 64 mod node_link_memory.kBlockAllocatorPageSize = 0 /\
  node_link_memory.kMinBlockAllocatorCapacity * 64 <= node_link_memory.capacity_buffer_size 64 /\
  node_link_memory.capacity_buffer_size 64
    < node_link_memory.kMinBlockAllocatorCapacity * 64 + node_link_memory.kBlockAllocatorPageSize.
Proof.
  assert (H : 64 <= 2 ^ 60) by (vm_compute; discriminate).
  split; [exact H|]. exact (capacity_buffer_size_bounds 64 H).
Defined.

(** The hypotheses of [request_block_capacity_once] hold on a concrete input. *)
Lemma request_block_capacity_once_witness :
  node_link_memory.find_callbacks (node_link_memory.capacity_callbacks_ fresh_memory) 256 = None /\
  let '(mem1, calls1) := request_all fresh_memory 256
                           [node_link_memory.LogCapacityFailure; node_link_memory.OtherCallback 3] in
  calls1 = [node_link_memory.NodeAllocateSharedMemory
              (node_link_memory.capacity_buffer_size 256) 256] /\
  let '(mem2, calls2) := node_link_memory.CapacityAllocated mem1 256 true in
  calls2 = [node_link_memory.LinkAddBlockBuffer 1 256; node_link_memory.PoolAddBlockBuffer 1 256]
           ++ map (fun c' => node_link_memory.RunCapacityCallback c' true)
                  [node_link_memory.LogCapacityFailure; node_link_memory.OtherCallback 3] /\
  node_link_memory.capacity_callbacks_ mem2 = [] /\
  node_link_memory.OnCapacityRequestComplete mem2 256 true = (mem2, []).
Proof.
  assert (H : node_link_memory.find_callbacks (node_link_memory.capacity_callbacks_ fresh_memory) 256
              = None) by reflexivity.
  split; [exact H|].
  exact (request_block_capacity_once fresh_memory 256 node_link_memory.LogCapacityFailure
           [node_link_memory.OtherCallback 3] true H).
Defined.

(** The hypotheses of [serialized_routers_get_distinct_sublinks] hold on a concrete input. *)
Lemma serialized_routers_get_distinct_sublinks_witness :
  node_link_memory.next_sublink_id fresh_memory + 2 <= 2 ^ 64 /\
  Forall (fun s => s < node_link_memory.next_sublink_id fresh_memory) (sublinks (mkNodeLink [1; 2])) /\
  let '(s1, mem1) := node_link_memory.AllocateSublinkIds fresh_memory 1 in
  let '(d1, _, nl1, _) := SerializeNewRouter (new_router 1) (mkNodeLink [1; 2]) s1 in
  let '(s2, _) := node_link_memory.AllocateSublinkIds mem1 1 in
  let '(d2, _, nl2, _) := SerializeNewRouter router_with_parcel nl1 s2 in
  new_sublink d1 <> new_sublink d2 /\ sublinks nl2 = s2 :: s1 :: [1; 2].
Proof.
  assert (H1 : node_link_memory.next_sublink_id fresh_memory + 2 <= 2 ^ 64)
    by (vm_compute; discriminate).
  assert (H2 : Forall (fun s => s < node_link_memory.next_sublink_id fresh_memory)
                      (sublinks (mkNodeLink [1; 2])))
    by (repeat constructor).
  split; [exact H1|]. split; [exact H2|].
  exact (serialized_routers_get_distinct_sublinks fresh_memory (mkNodeLink [1; 2])
           (new_router 1) router_with_parcel H1 H2).
Defined.

(** The hypotheses of [begin_put_then_abort_put] hold on a concrete input. *)
Lemma begin_put_then_abort_put_witness :
  portal.pending_parcels_ unlinked_portal = portal.NoPendingParcels /\
  portal.BeginPut no_link_capacity data_at_100 unlinked_portal false None 4
    = (IPCZ_RESULT_OK, portal.set_pending_parcels unlinked_portal (portal.FirstPendingParcel 100 4),
       4, Some 100) /\
  portal.AbortPut (portal.set_pending_parcels unlinked_portal (portal.FirstPendingParcel 100 4)) 100
    = (IPCZ_RESULT_OK, unlinked_portal) /\
  fst (portal.AbortPut unlinked_portal 100) = IPCZ_RESULT_INVALID_ARGUMENT.
Proof.
  assert (H1 : portal.pending_parcels_ unlinked_portal = portal.NoPendingParcels) by reflexivity.
  assert (H2 : portal.BeginPut no_link_capacity data_at_100 unlinked_portal false None 4
    = (IPCZ_RESULT_OK, portal.set_pending_parcels unlinked_portal (portal.FirstPendingParcel 100 4),
       4, Some 100)) by reflexivity.
  split; [exact H1|]. split; [exact H2|].
  exact (begin_put_then_abort_put no_link_capacity data_at_100 unlinked_portal false None 4 _ _ _
           H1 H2).
Defined.

(** The hypotheses of [pending_put_taken_once] hold on a concrete input. *)
Lemma pending_put_taken_once_witness :
  let p := portal.set_pending_parcels unlinked_portal (portal.FirstPendingParcel 100 4) in
  let '(res, p1, _) := portal.CommitPut no_lock no_self_bypass no_objects p 100 2
                         (parcel_data hello) [] in
  res = IPCZ_RESULT_OK /\
  fst (portal.AbortPut p1 100) = IPCZ_RESULT_INVALID_ARGUMENT /\
  forall produced' buffer' handles',
    fst (fst (portal.CommitPut no_lock no_self_bypass no_objects p1 100 produced' buffer' handles'))
    = IPCZ_RESULT_INVALID_ARGUMENT.
Proof.
  intros p.
  assert (R : fst (fst (portal.CommitPut no_lock no_self_bypass no_objects p 100 2
                          (parcel_data hello) [])) = IPCZ_RESULT_OK) by (vm_compute; reflexivity).
  destruct (portal.CommitPut no_lock no_self_bypass no_objects p 100 2 (parcel_data hello) [])
    as [[res p1] eff] eqn:H.
  simpl in R. subst res. split; [reflexivity|].
  exact (pending_put_taken_once no_lock no_self_bypass no_objects p 100 2 (parcel_data hello) []
           IPCZ_RESULT_OK p1 eff H ltac:(discriminate)).
Defined.
